(** * ATS score engine: a shallow embedding of [backend/ats_score_engine.py]

    The Python module is embedded function by function.  Conventions:

    - text ([str]) is a [string] of 8-bit characters; case mapping and white
      space follow Python on the ASCII range, so the embedding is exact for
      ASCII text (non-ASCII text is carried as its UTF-8 bytes);
    - [float] is Rocq's primitive binary64 [float], with the same rounding as
      the interpreter's;
    - raising is a result in the error monad [M]; every exception class that
      occurs derives from [Exception], so [except Exception] catches all of
      them (interrupts are outside the model);
    - a dict whose iteration order matters is an association list in
      insertion order, the result dicts are [gmap]s, word sets are [gset]s;
    - the libraries the module calls ([re], [difflib], the built-in [round],
      the sentence-transformer provider, scikit-learn's cosine similarity)
      are interfaces: every theorem holds for all their implementations.
      Regular expressions are kept as the pattern text of the source. *)

From Stdlib Require Import PrimFloat Uint63 ZArith Ascii String List Lia.
From stdpp Require Import gmap strings list pretty.

#[local] Set Warnings "-inexact-float".
#[local] Open Scope Z_scope.

(** ** Exceptions and the error monad *)

Inductive exn : Type :=
| UnboundLocalError (name : string)
| NameError (name : string)
| ValueError (msg : string)
| KeyError (key : string)
| AttributeError (msg : string)
| RuntimeError (msg : string).

Inductive M (A : Type) : Type :=
| Ok (a : A)
| Raise (e : exn).
Arguments Ok {A} a.
Arguments Raise {A} e.

Definition bind {A B : Type} (c : M A) (k : A -> M B) : M B :=
  match c with
  | Ok a => k a
  | Raise e => Raise e
  end.

Notation "'do' x <- c ; k" := (bind c (fun x => k))
  (at level 10, x name, c at level 100, k at level 200,
   format "'[v' 'do'  x  <-  c ; '/' k ']'").

(** [try: c except Exception as e: h e] *)
Definition try_except {A : Type} (c : M A) (h : exn -> M A) : M A :=
  match c with
  | Ok a => Ok a
  | Raise e => h e
  end.

(** Reading a local variable of a function: a local that no assignment has
    reached yet raises [UnboundLocalError]. *)
Definition read_local {A : Type} (name : string) (v : option A) : M A :=
  match v with
  | Some a => Ok a
  | None => Raise (UnboundLocalError name)
  end.

(** Calling a module-level name: a name the module never defines raises
    [NameError]. *)
Definition call_global {A B : Type} (name : string) (f : option (A -> M B)) (a : A) : M B :=
  match f with
  | Some g => g a
  | None => Raise (NameError name)
  end.

Fixpoint foldM {A S : Type} (step : S -> A -> M S) (l : list A) (s : S) : M S :=
  match l with
  | [] => Ok s
  | a :: l' => do s' <- step s a; foldM step l' s'
  end.

(** ** Built-in string methods *)

Module Str.

Definition nl : string := String (ascii_of_nat 10) EmptyString.

(** [c.isspace()] on the ASCII range: TAB..CR, FS..US and the blank. *)
Definition is_space (c : ascii) : bool :=
  let n := nat_of_ascii c in
  ((9 <=? n) && (n <=? 13) || (28 <=? n) && (n <=? 32))%nat.

Definition lower_char (c : ascii) : ascii :=
  let n := nat_of_ascii c in
  if ((65 <=? n) && (n <=? 90))%nat then ascii_of_nat (n + 32) else c.

(** [s.lower()] *)
Fixpoint lower (s : string) : string :=
  match s with
  | EmptyString => EmptyString
  | String c s' => String (lower_char c) (lower s')
  end.

Fixpoint lstrip (s : string) : string :=
  match s with
  | EmptyString => EmptyString
  | String c s' => if is_space c then lstrip s' else s
  end.

Fixpoint rstrip (s : string) : string :=
  match s with
  | EmptyString => EmptyString
  | String c s' =>
      match rstrip s' with
      | EmptyString => if is_space c then EmptyString else String c EmptyString
      | r => String c r
      end
  end.

(** [s.strip()] *)
Definition strip (s : string) : string := rstrip (lstrip s).

(** [s.split()]: the maximal runs of non-blank characters.  [cur] is the
    word being read, reversed. *)
Fixpoint split_from (cur : list ascii) (s : string) : list string :=
  let flush := match cur with
               | [] => []
               | _ => [string_of_list_ascii (rev cur)]
               end in
  match s with
  | EmptyString => flush
  | String c s' =>
      if is_space c then flush ++ split_from [] s'
      else split_from (c :: cur) s'
  end.

Definition split (s : string) : list string := split_from [] s.

(** [sub in s] *)
Fixpoint contains (sub s : string) : bool :=
  String.prefix sub s ||
  match s with
  | EmptyString => false
  | String _ s' => contains sub s'
  end.

(** [s.find(sub)]: index of the first occurrence, [-1] when there is none. *)
Fixpoint find_from (i : Z) (sub s : string) : Z :=
  if String.prefix sub s then i
  else match s with
       | EmptyString => -1
       | String _ s' => find_from (i + 1) sub s'
       end.

Definition find (sub s : string) : Z := find_from 0 sub s.

(** [s.count(sub)]: occurrences that do not overlap; [skip] characters of
    the occurrence just counted are still to be passed. *)
Fixpoint count_from (skip : nat) (sub s : string) : nat :=
  match s with
  | EmptyString =>
      match skip with
      | O => if String.prefix sub EmptyString then 1%nat else 0%nat
      | S _ => 0%nat
      end
  | String _ s' =>
      match skip with
      | S k => count_from k sub s'
      | O => if String.prefix sub s
             then S (count_from (Nat.pred (String.length sub)) sub s')
             else count_from 0 sub s'
      end
  end.

Definition count (sub s : string) : nat := count_from 0 sub s.

(** [s[a:b]] and [s[a:]] for indices inside the text. *)
Definition slice (a b : nat) (s : string) : string := substring a (b - a) s.
Definition slice_from (a : nat) (s : string) : string :=
  substring a (String.length s - a) s.

(** [sep.join(l)] *)
Definition join (sep : string) (l : list string) : string := String.concat sep l.

(** [not s] *)
Definition is_empty (s : string) : bool :=
  match s with
  | EmptyString => true
  | String _ _ => false
  end.

End Str.

(** ** Built-in numbers *)

Module Num.

(** [float(n)] for a length or a count. *)
Definition of_nat (n : nat) : float :=
  PrimFloat.of_uint63 (Uint63.of_Z (Z.of_nat n)).

(** [min(a, b)]: the first argument unless the second is smaller. *)
Definition fmin (a b : float) : float := if PrimFloat.ltb b a then b else a.

(** [sum(l)] *)
Definition fsum (l : list float) : float := fold_left PrimFloat.add l 0%float.

(** [max(l)] and [min(l)] of a list of integers; empty lists raise. *)
Definition max_list (l : list Z) : M Z :=
  match l with
  | [] => Raise (ValueError "max() arg is an empty sequence")
  | x :: l' => Ok (fold_left Z.max l' x)
  end.

Definition min_list (l : list Z) : M Z :=
  match l with
  | [] => Raise (ValueError "min() arg is an empty sequence")
  | x :: l' => Ok (fold_left Z.min l' x)
  end.

End Num.

(** ** Dicts in insertion order *)

Module Dict.

Definition t (V : Type) : Type := list (string * V).

Fixpoint get {V : Type} (k : string) (d : t V) : option V :=
  match d with
  | [] => None
  | (k', v) :: d' => if String.eqb k k' then Some v else get k d'
  end.

(** [d[k] = v]: an existing key keeps its place. *)
Fixpoint set {V : Type} (k : string) (v : V) (d : t V) : t V :=
  match d with
  | [] => [(k, v)]
  | (k', v') :: d' =>
      if String.eqb k k' then (k, v) :: d' else (k', v') :: set k v d'
  end.

Definition keys {V : Type} (d : t V) : list string := map fst d.
Definition values {V : Type} (d : t V) : list V := map snd d.

End Dict.

(** ** The libraries the module calls *)

(** A match object: [m.start()], [m.end()]; [m.group()] is the text between. *)
Record Match : Type := { m_start : nat; m_end : nat }.

Definition group (text : string) (m : Match) : string :=
  Str.slice (m_start m) (m_end m) text.

(** [re], [difflib.SequenceMatcher(None, a, b).ratio()] and the built-in
    [round(x, ndigits)]. *)
Class Library : Type := {
  re_search : string -> string -> bool -> option Match;
    (* pattern, text, re.IGNORECASE *)
  re_findall : string -> string -> list string;
  re_sub : string -> string -> string -> string;
    (* pattern, replacement, text *)
  sequence_matcher_ratio : string -> string -> float;
  round_ndigits : float -> Z -> float
}.

(** [pattern.format(keyword=kw)]: [{keyword}] is replaced, doubled braces
    are literal braces, any other field is a missing argument.  [field] is
    the replacement field being read, reversed. *)
Fixpoint format_from (kw : string) (field : option (list ascii)) (s : string) : M string :=
  match field, s with
  | None, EmptyString => Ok EmptyString
  | None, String "{" (String "{" s') =>
      do r <- format_from kw None s'; Ok (String "{" r)
  | None, String "}" (String "}" s') =>
      do r <- format_from kw None s'; Ok (String "}" r)
  | None, String "{" s' => format_from kw (Some []) s'
  | None, String "}" _ => Raise (ValueError "Single '}' encountered in format string")
  | None, String c s' => do r <- format_from kw None s'; Ok (String c r)
  | Some _, EmptyString => Raise (ValueError "expected '}' before end of string")
  | Some f, String "}" s' =>
      let name := string_of_list_ascii (rev f) in
      if String.eqb name "keyword"
      then do r <- format_from kw None s'; Ok (kw +:+ r)
      else Raise (KeyError name)
  | Some f, String c s' => format_from kw (Some (c :: f)) s'
  end.

Definition format_keyword (pattern kw : string) : M string :=
  format_from kw None pattern.

(** ** The lexical analyzers *)

Section Analyzers.

Context {lib : Library}.

(** *** [_check_section_headers] *)

(** The three patterns are built inside the loop over the keywords, from
    the keyword of the current iteration. *)
Definition section_header_patterns (keyword : string) : list string :=
  [ "\b(" +:+ keyword +:+ ")\s*:";
    "\n\s*(" +:+ keyword +:+ ")\s*\n";
    "\n\s*(" +:+ keyword +:+ ")\s*[^\n]*\n\s*[-•\*]" ].

Definition _check_section_headers (resume_text : string) (section_keywords : list string) : bool :=
  existsb
    (fun keyword =>
       existsb (fun pattern => bool_decide (is_Some (re_search pattern resume_text true)))
               (section_header_patterns keyword))
    section_keywords.

(** *** [check_sections] *)

Definition sections : list (string * list string) :=
  [ ("experience",
     [ "experience"; "work history"; "professional background"; "employment";
       "work experience"; "career history"; "professional experience";
       "employment history"; "work background"; "professional journey" ]);
    ("education",
     [ "education"; "academic"; "qualification"; "degree"; "university";
       "college"; "school"; "certification"; "academic background";
       "educational background"; "academic qualifications"; "degrees";
       "certifications"; "training"; "courses" ]);
    ("skills",
     [ "skills"; "abilities"; "competencies"; "expertise"; "proficiencies";
       "technical skills"; "core competencies"; "technical expertise";
       "professional skills"; "key skills"; "skill set"; "capabilities";
       "technical proficiencies"; "areas of expertise" ]);
    ("summary",
     [ "summary"; "profile"; "objective"; "about me"; "professional summary";
       "career objective"; "professional profile"; "executive summary";
       "career summary"; "personal statement"; "professional overview";
       "career profile"; "professional statement" ]);
    ("projects",
     [ "projects"; "portfolio"; "project experience"; "project history";
       "project work"; "project portfolio"; "project showcase";
       "project achievements"; "project highlights"; "project details" ]);
    ("achievements",
     [ "achievements"; "accomplishments"; "awards"; "recognition";
       "honors"; "certifications"; "professional achievements";
       "key achievements"; "notable accomplishments"; "awards and recognition" ]) ].

Definition weights : list (string * float) :=
  [ ("experience", 0.25%float); ("education", 0.20%float); ("skills", 0.20%float);
    ("summary", 0.15%float); ("projects", 0.10%float); ("achievements", 0.10%float) ].

(** The list of five f-strings at the head of the loop over the sections.
    Each interpolates the function's local [keyword], which is assigned
    only by the [for keyword in ...] loops further down: the list is built
    from whatever that local holds when the section is entered. *)
Definition header_patterns (keyword : option string) : M (list string) :=
  do k1 <- read_local "keyword" keyword;
  do k2 <- read_local "keyword" keyword;
  do k3 <- read_local "keyword" keyword;
  do k4 <- read_local "keyword" keyword;
  do k5 <- read_local "keyword" keyword;
  Ok [ "\b(" +:+ k1 +:+ ")\s*:";
       "\n\s*(" +:+ k2 +:+ ")\s*\n";
       "\n\s*(" +:+ k3 +:+ ")\s*[^\n]*\n\s*[-•\*]";
       "\n\s*(" +:+ k4 +:+ ")\s*[^\n]*\n\s*[A-Z]";
       "\n\s*(" +:+ k5 +:+ ")\s*[^\n]*\n\s*\d+\." ].

(** [for pattern in header_patterns: if re.search(pattern.format(...)): ...] *)
Fixpoint pattern_loop (patterns : list string) (resume_text keyword : string) : M bool :=
  match patterns with
  | [] => Ok false
  | pattern :: rest =>
      do p <- format_keyword pattern keyword;
      match re_search p resume_text true with
      | Some _ => Ok true
      | None => pattern_loop rest resume_text keyword
      end
  end.

(** The header loop; it returns the local [keyword] as the loop leaves it
    and [header_detected]. *)
Fixpoint header_loop (patterns : list string) (resume_text : string)
    (section_keywords : list string) (keyword : option string) : M (option string * bool) :=
  match section_keywords with
  | [] => Ok (keyword, false)
  | kw :: rest =>
      do hit <- pattern_loop patterns resume_text kw;
      if hit : bool then Ok (Some kw, true)
      else header_loop patterns resume_text rest (Some kw)
  end.

(** The content loop, with the same results. *)
Fixpoint content_loop (resume_text : string) (section_keywords : list string)
    (keyword : option string) : option string * bool :=
  match section_keywords with
  | [] => (keyword, false)
  | kw :: rest =>
      let hit :=
        Str.contains kw (Str.lower resume_text) &&
        match re_search ("\n.*?" +:+ kw +:+ ".*?\n") resume_text true with
        | Some context =>
            (String.length kw + 5 <? String.length (Str.strip (group resume_text context)))%nat
        | None => false
        end in
      if hit then (Some kw, true) else content_loop resume_text rest (Some kw)
  end.

(** One iteration of the loop over [sections.items()]; the state is the
    local [keyword] and [section_scores]. *)
Definition section_step (resume_text : string)
    (st : option string * Dict.t float) (item : string * list string)
    : M (option string * Dict.t float) :=
  let '(keyword, section_scores) := st in
  let '(section_name, section_keywords) := item in
  do patterns <- header_patterns keyword;
  do h <- header_loop patterns resume_text section_keywords keyword;
  let '(keyword, header_detected) := h in
  let '(keyword, content_detected) := content_loop resume_text section_keywords keyword in
  let score := if header_detected : bool then 1.0%float
               else if content_detected : bool then 0.7%float
               else 0.0%float in
  Ok (keyword, Dict.set section_name score section_scores).

Definition check_sections (resume_text : string) : M float :=
  do st <- foldM (section_step resume_text) sections (None, []);
  let section_scores := snd st in
  Ok (Num.fsum
        (map (fun '(section, weight) =>
                (default 0%float (Dict.get section section_scores) * weight)%float)
             weights)).

(** *** [get_skill_similarity] *)

Definition get_skill_similarity (skill1 skill2 : string) : float :=
  sequence_matcher_ratio (Str.lower skill1) (Str.lower skill2).

(** *** [check_keywords] *)

Definition technical_terms : list string :=
  [ "python"; "java"; "javascript"; "react"; "aws"; "cloud"; "ml"; "ai";
    "docker"; "kubernetes"; "sql"; "nosql"; "devops"; "security" ].

Definition framework_terms : list string :=
  [ "react"; "angular"; "vue"; "django"; "flask"; "spring"; "express";
    "tensorflow"; "pytorch"; "scikit-learn" ].

Definition cloud_terms : list string :=
  [ "aws"; "azure"; "gcp"; "cloud"; "s3"; "ec2"; "lambda"; "kubernetes";
    "docker"; "terraform" ].

(** [any(term in kw.lower() for term in terms)] *)
Definition mentions (terms : list string) (kw : string) : bool :=
  existsb (fun term => Str.contains term (Str.lower kw)) terms.

Definition base_weight (kw : string) : float :=
  let w := 1.0%float in
  let w := if mentions technical_terms kw then (w + 0.5)%float else w in
  let w := if mentions framework_terms kw then (w + 0.3)%float else w in
  let w := if mentions cloud_terms kw then (w + 0.4)%float else w in
  w.

(** The dict [keyword_importance], keyed by the lower-cased keywords. *)
Definition keyword_importance (job_keywords : list string) : Dict.t float :=
  fold_left (fun d kw => Dict.set (Str.lower kw) (base_weight kw) d) job_keywords [].

(** [clean_resume] *)
Definition clean_resume (resume_text : string) : string :=
  Str.strip (re_sub "\s+" " " (re_sub "[.,;:!?()\[\]{}]" " " resume_text)).

(** The sub-words of a keyword that count: [len(part) > 3]. *)
Definition long_parts (kw_parts : list string) : list string :=
  filter (fun part => (3 <? String.length part)%nat) kw_parts.

(** "All parts present in close proximity": the test that leads to the
    factor 0.9. *)
Definition parts_close (clean : string) (kw_parts : list string) : M bool :=
  if forallb (fun part => Str.contains part clean) (long_parts kw_parts) then
    let parts_positions := map (fun part => Str.find part clean) (long_parts kw_parts) in
    if forallb (fun pos => negb (pos =? -1)) parts_positions then
      do hi <- Num.max_list parts_positions;
      do lo <- Num.min_list parts_positions;
      let max_distance := hi - lo in
      Ok (max_distance <? 50)
    else Ok false
  else Ok false.

(** [sum(1 for part in kw_parts if part in clean_resume and len(part) > 3)] *)
Definition parts_present (clean : string) (kw_parts : list string) : nat :=
  length (filter (fun part => Str.contains part clean && (3 <? String.length part)%nat) kw_parts).

(** "Most parts present": the test that leads to the factor 0.7. *)
Definition most_parts (clean : string) (kw_parts : list string) : bool :=
  (2 <? length kw_parts)%nat &&
  PrimFloat.leb (Num.of_nat (length kw_parts) * 0.7)%float
                (Num.of_nat (parts_present clean kw_parts)).

(** The fuzzy loop over the words of the cleaned resume. *)
Definition fuzzy_hit (clean kw : string) : bool :=
  existsb (fun word => (3 <? String.length word)%nat &&
                       PrimFloat.ltb 0.8%float (get_skill_similarity kw word))
          (Str.split clean).

(** One iteration of the matching loop: what is stored in [matches[kw]],
    if anything. *)
Definition keyword_contribution (clean kw : string) (weight : float) : M (option float) :=
  if Str.contains (" " +:+ kw +:+ " ") (" " +:+ clean +:+ " ") then Ok (Some weight)
  else
    do tier <-
      (if Str.contains " " kw then
         let kw_parts := Str.split kw in
         do close <- parts_close clean kw_parts;
         if close : bool then Ok (Some (weight * 0.9)%float)
         else if most_parts clean kw_parts then Ok (Some (weight * 0.7)%float)
         else Ok None
       else Ok None);
    match tier with
    | Some v => Ok (Some v)
    | None =>
        if (length (Str.split kw) =? 1)%nat && (3 <? String.length kw)%nat
           && fuzzy_hit clean kw
        then Ok (Some (weight * 0.6)%float)
        else Ok None
    end.

Definition match_step (clean : string) (matches : Dict.t float) (item : string * float)
    : M (Dict.t float) :=
  let '(kw, weight) := item in
  do r <- keyword_contribution clean kw weight;
  match r with
  | Some v => Ok (Dict.set kw v matches)
  | None => Ok matches
  end.

(** The dict [matches] after the loop over [keyword_importance.items()]. *)
Definition keyword_matches (clean : string) (importance : Dict.t float) : M (Dict.t float) :=
  foldM (match_step clean) importance [].

(** The context bonus: 0.1 for each section line that holds a matched
    keyword. *)
Definition context_bonus (resume_text : string) (matches : Dict.t float) : float :=
  if (0 <? length matches)%nat then
    fold_left
      (fun bonus section =>
         match re_search ("\n\s*" +:+ section +:+ ".*?\n") resume_text true with
         | Some section_match =>
             let section_text := Str.lower (group resume_text section_match) in
             let section_matches :=
               length (filter (fun kw => Str.contains kw section_text) (Dict.keys matches)) in
             if (0 <? section_matches)%nat then (bonus + 0.1)%float else bonus
         | None => bonus
         end)
      ["experience"; "skills"; "projects"] 0.0%float
  else 0.0%float.

Definition check_keywords (resume_text : string) (job_keywords : list string) : M float :=
  match job_keywords with
  | [] => Ok 0%float
  | _ =>
      let clean := clean_resume resume_text in
      let importance := keyword_importance job_keywords in
      let total_weight := Num.fsum (Dict.values importance) in
      do matches <- keyword_matches clean importance;
      if PrimFloat.eqb total_weight 0%float then Ok 0%float
      else
        let weighted_score := (Num.fsum (Dict.values matches) / total_weight)%float in
        let keyword_density :=
          (Num.of_nat (length matches) / Num.of_nat (Nat.max 1 (length job_keywords)))%float in
        let density_bonus := Num.fmin 0.3%float (keyword_density * 0.5)%float in
        Ok (Num.fmin 1.0%float
              (weighted_score + density_bonus + context_bonus resume_text matches)%float)
  end.

(** *** [check_formatting] *)

(** The score of a count on the three-step scale shared by bullets and
    headers. *)
Definition density_score (hi mid : nat) (n : nat) : float :=
  if (hi <=? n)%nat then 0.35%float
  else if (mid <=? n)%nat then 0.25%float
  else if (0 <? n)%nat then 0.15%float
  else 0%float.

Definition format_header_patterns : list string :=
  [ "(\n[A-Z][A-Z\s]+:)";
    "(\n[A-Z][A-Z\s]+\n)";
    "(\n[A-Z][a-z]+\s[A-Z][a-z]+:)";
    "(\n\s*\d+\.\s*[A-Z][a-z]+)" ].

Definition date_patterns : list string :=
  [ "\b(Jan|Feb|Mar|Apr|May|Jun|Jul|Aug|Sep|Oct|Nov|Dec)[a-z]* \d{4}\b";
    "\b\d{2}/\d{2}/\d{4}\b";
    "\b\d{4}-\d{2}-\d{2}\b";
    "\b\d{4}\s*-\s*(?:Present|Current|Now)\b" ].

Definition contact_patterns : list string :=
  [ "\b[A-Za-z0-9._%+-]+@[A-Za-z0-9.-]+\.[A-Z|a-z]{2,}\b";
    "\b(?:\+\d{1,3}\s?)?(?:\(\d{3}\)|\d{3})[-.\s]?\d{3}[-.\s]?\d{4}\b";
    "linkedin\.com/in/[a-zA-Z0-9_-]+";
    "github\.com/[a-zA-Z0-9_-]+" ].

(** The patterns of a list that [re.search] finds in the text. *)
Definition found (patterns : list string) (resume_text : string) : list string :=
  filter (fun pattern => bool_decide (is_Some (re_search pattern resume_text false))) patterns.

Definition check_formatting (resume_text : string) : float :=
  let format_score := 0%float in
  let bullet_count :=
    (Str.count "•" resume_text + Str.count "- " resume_text + Str.count "* " resume_text)%nat in
  let numbered_bullets := length (re_findall "\n\s*\d+\." resume_text) in
  let total_bullets := (bullet_count + numbered_bullets)%nat in
  let format_score := (format_score + density_score 10 5 total_bullets)%float in
  let headers_count :=
    fold_left (fun n pattern => (n + length (re_findall pattern resume_text))%nat)
              format_header_patterns 0%nat in
  let format_score := (format_score + density_score 5 3 headers_count)%float in
  let date_formats_found := length (found date_patterns resume_text) in
  let date_format_score := Num.fmin 0.15%float (Num.of_nat date_formats_found * 0.05)%float in
  let format_score := (format_score + date_format_score)%float in
  let contact_score :=
    fold_left (fun c _ => (c + 0.05)%float) (found contact_patterns resume_text) 0%float in
  let format_score := (format_score + Num.fmin 0.15%float contact_score)%float in
  Num.fmin format_score 1.0%float.

(** *** [check_context_relevance] *)

Definition context_step (resume_text : string) (job_keywords : list string)
    (context_score : float) (section : string) : float :=
  match re_search ("\n\s*" +:+ section +:+ ".*?\n") resume_text true with
  | None => context_score
  | Some section_match =>
      let section_start := m_start section_match in
      let next_section_match :=
        re_search "\n\s*[A-Z][A-Z\s]+\s*(?::|$)"
                  (Str.slice_from (section_start + 1) resume_text) true in
      let section_end :=
        match next_section_match with
        | Some m => (section_start + 1 + m_start m)%nat
        | None => String.length resume_text
        end in
      let section_text := Str.lower (Str.slice section_start section_end resume_text) in
      let section_keywords :=
        length (filter (fun kw => Str.contains (Str.lower kw) section_text) job_keywords) in
      let weight :=
        if existsb (String.eqb section) ["experience"; "skill"] then 0.4%float else 0.2%float in
      (context_score
       + Num.of_nat section_keywords / Num.of_nat (length job_keywords) * weight)%float
  end.

Definition check_context_relevance (resume_text : string) (job_keywords : list string) : float :=
  match job_keywords with
  | [] => 0%float
  | _ =>
      let context_score :=
        fold_left (context_step resume_text job_keywords)
                  ["experience"; "project"; "skill"; "education"] 0%float in
      Num.fmin context_score 1.0%float
  end.

(** ** The heuristic aggregator: [ats_score] *)

Definition ats_score (resume_text : string) (job_keywords : list string) : M float :=
  if Str.is_empty resume_text || bool_decide (job_keywords = []) then Ok 0.0%float
  else
    let resume_text := Str.lower resume_text in
    let job_keywords :=
      map Str.strip (filter (fun kw => negb (Str.is_empty (Str.strip kw))) job_keywords) in
    do section_score <- check_sections resume_text;
    do keyword_score <- check_keywords resume_text job_keywords;
    let format_score := check_formatting resume_text in
    let context_score := check_context_relevance resume_text job_keywords in
    let final_score :=
      (section_score * 0.25 + keyword_score * 0.35
       + format_score * 0.20 + context_score * 0.20)%float in
    Ok (round_ndigits (final_score * 100)%float 2).

End Analyzers.

(** ** The insight generator *)

(** The module-level names the three insight functions call.  A name the
    module does not define is [None]; a defined helper may itself raise. *)
Record Namespace : Type := {
  extract_required_skills : option (string -> M (list string));
  extract_skills : option (string -> M (list string));
  extract_experience_level : option (string -> M Z);
  extract_experience_years : option (string -> M Z);
  extract_education_requirements : option (string -> M (list string));
  extract_education : option (string -> M (list string));
  is_well_formatted : option (string -> M bool)
}.

(** The module defines none of the seven names and imports none of them. *)
Definition module_namespace : Namespace :=
  {| extract_required_skills := None;
     extract_skills := None;
     extract_experience_level := None;
     extract_experience_years := None;
     extract_education_requirements := None;
     extract_education := None;
     is_well_formatted := None |}.

Section Insights.

Variable ns : Namespace.

(** [l.append(x)] when [b] holds. *)
Definition append_if (b : bool) (x : string) (l : list string) : list string :=
  if b then l ++ [x] else l.

Definition member (x : string) (l : list string) : bool := bool_decide (x ∈ l).

(** The body of the [try] of [identify_strengths]. *)
Definition identify_strengths_body (resume_text job_description : string) : M (list string) :=
  let strengths := [] in
  do required_skills <- call_global "extract_required_skills" (extract_required_skills ns) job_description;
  do resume_skills <- call_global "extract_skills" (extract_skills ns) resume_text;
  let matching_skills := filter (fun skill => member skill resume_skills) required_skills in
  let strengths :=
    append_if (negb (bool_decide (matching_skills = [])))
      ("Strong match with required skills: " +:+ Str.join ", " matching_skills) strengths in
  do exp_level <- call_global "extract_experience_level" (extract_experience_level ns) job_description;
  do resume_exp <- call_global "extract_experience_years" (extract_experience_years ns) resume_text;
  let strengths :=
    append_if (exp_level <=? resume_exp)
      ("Meets or exceeds required experience level (" +:+ pretty exp_level +:+ " years)")
      strengths in
  do edu_req <- call_global "extract_education_requirements" (extract_education_requirements ns) job_description;
  do resume_edu <- call_global "extract_education" (extract_education ns) resume_text;
  let strengths :=
    append_if (existsb (fun edu => member edu resume_edu) edu_req)
      "Meets education requirements" strengths in
  do formatted <- call_global "is_well_formatted" (is_well_formatted ns) resume_text;
  let strengths :=
    append_if formatted "Well-formatted resume with clear sections" strengths in
  Ok strengths.

Definition identify_strengths (resume_text job_description : string) : M (list string) :=
  try_except (identify_strengths_body resume_text job_description) (fun _ => Ok []).

(** The body of the [try] of [identify_weaknesses]. *)
Definition identify_weaknesses_body (resume_text job_description : string) : M (list string) :=
  let weaknesses := [] in
  do required_skills <- call_global "extract_required_skills" (extract_required_skills ns) job_description;
  do resume_skills <- call_global "extract_skills" (extract_skills ns) resume_text;
  let missing_skills := filter (fun skill => negb (member skill resume_skills)) required_skills in
  let weaknesses :=
    append_if (negb (bool_decide (missing_skills = [])))
      ("Missing required skills: " +:+ Str.join ", " missing_skills) weaknesses in
  do exp_level <- call_global "extract_experience_level" (extract_experience_level ns) job_description;
  do resume_exp <- call_global "extract_experience_years" (extract_experience_years ns) resume_text;
  let weaknesses :=
    append_if (resume_exp <? exp_level)
      ("Below required experience level (" +:+ pretty exp_level +:+ " years)") weaknesses in
  do edu_req <- call_global "extract_education_requirements" (extract_education_requirements ns) job_description;
  do resume_edu <- call_global "extract_education" (extract_education ns) resume_text;
  let weaknesses :=
    append_if (negb (existsb (fun edu => member edu resume_edu) edu_req))
      "Does not meet education requirements" weaknesses in
  do formatted <- call_global "is_well_formatted" (is_well_formatted ns) resume_text;
  let weaknesses :=
    append_if (negb formatted) "Resume format could be improved" weaknesses in
  Ok weaknesses.

Definition identify_weaknesses (resume_text job_description : string) : M (list string) :=
  try_except (identify_weaknesses_body resume_text job_description) (fun _ => Ok []).

(** The body of the [try] of [suggest_improvements]. *)
Definition suggest_improvements_body (resume_text job_description : string) : M (list string) :=
  let improvements := [] in
  do required_skills <- call_global "extract_required_skills" (extract_required_skills ns) job_description;
  do resume_skills <- call_global "extract_skills" (extract_skills ns) resume_text;
  let missing_skills := filter (fun skill => negb (member skill resume_skills)) required_skills in
  let improvements :=
    append_if (negb (bool_decide (missing_skills = [])))
      ("Add missing required skills: " +:+ Str.join ", " missing_skills) improvements in
  do exp_level <- call_global "extract_experience_level" (extract_experience_level ns) job_description;
  do resume_exp <- call_global "extract_experience_years" (extract_experience_years ns) resume_text;
  let improvements :=
    append_if (resume_exp <? exp_level)
      ("Highlight relevant experience to meet " +:+ pretty exp_level +:+ " years requirement")
      improvements in
  do edu_req <- call_global "extract_education_requirements" (extract_education_requirements ns) job_description;
  do resume_edu <- call_global "extract_education" (extract_education ns) resume_text;
  let improvements :=
    append_if (negb (existsb (fun edu => member edu resume_edu) edu_req))
      ("Consider adding " +:+ Str.join ", " edu_req +:+ " education") improvements in
  do formatted <- call_global "is_well_formatted" (is_well_formatted ns) resume_text;
  let improvements :=
    append_if (negb formatted)
      "Improve resume formatting with clear sections and bullet points" improvements in
  Ok improvements.

Definition suggest_improvements (resume_text job_description : string) : M (list string) :=
  try_except (suggest_improvements_body resume_text job_description) (fun _ => Ok []).

End Insights.

(** ** The semantic scorer *)

(** The similarity provider: loading the sentence transformer (the outcome
    of the [n]-th load the process attempts), its [encode], and
    [cosine_similarity([a], [b])[0][0]].  [encode] and the similarity are
    functions of their arguments; each of the three may raise. *)
Class Provider : Type := {
  Model : Type;
  Embedding : Type;
  get_sentence_transformer : nat -> M Model;
  encode : Model -> list string -> M (list Embedding);
  cosine_similarity : Embedding -> Embedding -> M float
}.

(** The values of an analysis result. *)
Record FormatAnalysis : Type := {
  score : float;
  issues : list string;
  suggestions : list string
}.

Record ContentAnalysis : Type := {
  keyword_match : nat;
  missing_keywords : list string;
  content_suggestions : list string
}.

Inductive value : Type :=
| VFloat (x : float)
| VFormat (a : FormatAnalysis)
| VContent (a : ContentAnalysis)
| VStrings (l : list string).

(** [set(text.lower().split())] *)
Definition word_set (text : string) : gset string :=
  list_to_set (Str.split (Str.lower text)).

Module ATSScorer.
Section Scorer.

Context {prov : Provider}.

Record t : Type := { model : option Model; initialized : bool }.

(** [_initialize_model], at the [n]-th load of the process. *)
Definition _initialize_model (self : t) (n : nat) : t :=
  match get_sentence_transformer n with
  | Ok m => {| model := Some m; initialized := true |}
  | Raise _ => {| model := model self; initialized := false |}
  end.

(** [__init__] *)
Definition init (n : nat) : t :=
  _initialize_model {| model := None; initialized := false |} n.

Definition _basic_ats_score (resume_text job_description : string) : gmap string value :=
  let resume_words := word_set resume_text in
  let job_words := word_set job_description in
  let common_words := resume_words ∩ job_words in
  let match_score :=
    if bool_decide (job_words = ∅) then 0%float
    else (Num.of_nat (size common_words) / Num.of_nat (size job_words) * 100)%float in
  <[ "content_analysis" :=
       VContent {| keyword_match := size common_words;
                   missing_keywords := elements (job_words ∖ resume_words);
                   content_suggestions := ["Add missing keywords to improve ATS score"] |} ]>
  (<[ "format_analysis" :=
       VFormat {| score := 50%float;
                  issues := ["Basic analysis only"];
                  suggestions := ["Try again later for detailed format analysis"] |} ]>
  (<[ "ats_score" := VFloat (match_score * 0.8)%float ]> ∅)).

Definition _analyze_format (resume_text : string) : FormatAnalysis :=
  let sections := ["education"; "experience"; "skills"; "projects"] in
  let found_sections :=
    filter (fun section => Str.contains section (Str.lower resume_text)) sections in
  let missing : gset string := list_to_set sections ∖ list_to_set found_sections in
  {| score := (Num.of_nat (length found_sections) / Num.of_nat (length sections) * 100)%float;
     issues := if (length found_sections <? length sections)%nat
               then ["Missing sections: " +:+ Str.join ", " (elements missing)]
               else [];
     suggestions := [ "Ensure all major sections are present";
                      "Use consistent formatting throughout";
                      "Include clear section headers" ] |}.

Definition _analyze_content (resume_text job_description : string) : ContentAnalysis :=
  let resume_words := word_set resume_text in
  let job_words := word_set job_description in
  let matching_keywords := resume_words ∩ job_words in
  let missing_keywords := job_words ∖ resume_words in
  {| keyword_match := size matching_keywords;
     missing_keywords := elements missing_keywords;
     content_suggestions :=
       if bool_decide (missing_keywords = ∅) then []
       else ["Add these keywords: " +:+ Str.join ", " (take 5 (elements missing_keywords))] |}.

(** The body of the [try] of the method [calculate_ats_score]. *)
Definition similarity_result (self : t) (resume_text job_description : string)
    : M (gmap string value) :=
  let texts := [resume_text; job_description] in
  do m <- match model self with
          | Some m => Ok m
          | None => Raise (AttributeError "'NoneType' object has no attribute 'encode'")
          end;
  do embeddings <- encode m texts;
  do pair <- match embeddings with
             | [resume_embedding; job_embedding] => Ok (resume_embedding, job_embedding)
             | _ => Raise (ValueError "wrong number of values to unpack")
             end;
  do similarity <- cosine_similarity (fst pair) (snd pair);
  let ats_score := (similarity * 100)%float in
  let format_analysis := _analyze_format resume_text in
  let content_analysis := _analyze_content resume_text job_description in
  Ok (<[ "content_analysis" := VContent content_analysis ]>
      (<[ "format_analysis" := VFormat format_analysis ]>
      (<[ "ats_score" := VFloat ats_score ]> ∅))).

Definition calculate_ats_score (self : t) (resume_text job_description : string)
    : M (gmap string value) :=
  if negb (initialized self) then Ok (_basic_ats_score resume_text job_description)
  else try_except (similarity_result self resume_text job_description)
                  (fun _ => Ok (_basic_ats_score resume_text job_description)).

End Scorer.
End ATSScorer.

(** ** The process-wide scorer and the combined entry point *)

Section Process.

Context {prov : Provider}.
Variable ns : Namespace.

(** The module global [_ats_scorer] and the number of provider loads the
    process has attempted. *)
Record Process : Type := {
  _ats_scorer : option ATSScorer.t;
  loads : nat
}.

(** A process that has not touched the scorer yet. *)
Definition fresh : Process := {| _ats_scorer := None; loads := 0 |}.

Definition get_ats_scorer (p : Process) : ATSScorer.t * Process :=
  match _ats_scorer p with
  | None =>
      let scorer := ATSScorer.init (loads p) in
      (scorer, {| _ats_scorer := Some scorer; loads := S (loads p) |})
  | Some scorer => (scorer, p)
  end.

(** The dict returned by the [except] branch of [calculate_ats_score]. *)
Definition empty_result : gmap string value :=
  <[ "improvements" := VStrings [] ]>
  (<[ "weaknesses" := VStrings [] ]>
  (<[ "strengths" := VStrings [] ]>
  (<[ "content_analysis" :=
        VContent {| keyword_match := 0; missing_keywords := []; content_suggestions := [] |} ]>
  (<[ "format_analysis" := VFormat {| score := 0%float; issues := []; suggestions := [] |} ]>
  (<[ "ats_score" := VFloat 0%float ]> ∅))))).

(** [result.update({'strengths': ..., 'weaknesses': ..., 'improvements': ...})] *)
Definition with_insights (resume_text job_description : string)
    (result : gmap string value) : M (gmap string value) :=
  do strengths <- identify_strengths ns resume_text job_description;
  do weaknesses <- identify_weaknesses ns resume_text job_description;
  do improvements <- suggest_improvements ns resume_text job_description;
  Ok (<[ "improvements" := VStrings improvements ]>
      (<[ "weaknesses" := VStrings weaknesses ]>
      (<[ "strengths" := VStrings strengths ]> result))).

Definition calculate_ats_score (resume_text job_description : string) (p : Process)
    : M (gmap string value) * Process :=
  let '(scorer, p) := get_ats_scorer p in
  (try_except
     (do result <- ATSScorer.calculate_ats_score scorer resume_text job_description;
      with_insights resume_text job_description result)
     (fun _ => Ok empty_result),
   p).

End Process.

(** ** A process using the module *)

(** The calls a process makes to the two primary entry points, and what it
    gets back. *)
Inductive call : Type :=
| AtsScore (resume_text : string) (job_keywords : list string)
| CalculateAtsScore (resume_text job_description : string).

Inductive outcome : Type :=
| Score (r : M float)
| Analysis (r : M (gmap string value)).

Section Calls.

Context {lib : Library} {prov : Provider}.
Variable ns : Namespace.

Definition exec (c : call) (p : Process) : outcome * Process :=
  match c with
  | AtsScore resume_text job_keywords => (Score (ats_score resume_text job_keywords), p)
  | CalculateAtsScore resume_text job_description =>
      let '(r, p) := calculate_ats_score ns resume_text job_description p in
      (Analysis r, p)
  end.

Fixpoint run (calls : list call) (p : Process) : list outcome * Process :=
  match calls with
  | [] => ([], p)
  | c :: rest =>
      let '(o, p) := exec c p in
      let '(os, p) := run rest p in
      (o :: os, p)
  end.

(** What a call returns when the scorer takes the basic path. *)
Definition degraded (c : call) : outcome :=
  match c with
  | AtsScore resume_text job_keywords => Score (ats_score resume_text job_keywords)
  | CalculateAtsScore resume_text job_description =>
      Analysis (with_insights ns resume_text job_description
                  (ATSScorer._basic_ats_score resume_text job_description))
  end.

Definition is_calculate (c : call) : bool :=
  match c with
  | AtsScore _ _ => false
  | CalculateAtsScore _ _ => true
  end.

End Calls.

(** ** Instances for concrete runs *)

(** A library in which no pattern matches, substitution changes nothing,
    only equal strings are similar and rounding is the identity.  It serves
    to run the analyzers on inputs whose outcome no library call decides. *)
Definition inert_library : Library :=
  {| re_search := fun _ _ _ => None;
     re_findall := fun _ _ => [];
     re_sub := fun _ _ text => text;
     sequence_matcher_ratio := fun a b => if String.eqb a b then 1%float else 0%float;
     round_ndigits := fun x _ => x |}.

(** A provider whose first load fails and whose later loads would succeed. *)
Definition failing_provider : Provider :=
  {| Model := unit;
     Embedding := unit;
     get_sentence_transformer :=
       fun n => match n with
                | O => Raise (RuntimeError "model unavailable")
                | S _ => Ok tt
                end;
     encode := fun _ texts => Ok (map (fun _ => tt) texts);
     cosine_similarity := fun _ _ => Ok 1%float |}.

(** A provider that loads and whose [encode] fails. *)
Definition broken_encoder : Provider :=
  {| Model := unit;
     Embedding := unit;
     get_sentence_transformer := fun _ => Ok tt;
     encode := fun _ _ => Raise (RuntimeError "encode failed");
     cosine_similarity := fun _ _ => Ok 1%float |}.

(** The list a [try] body leaves when its failure is caught. *)
Definition recovered (c : M (list string)) : list string :=
  match c with
  | Ok l => l
  | Raise _ => []
  end.

(** A namespace in which the seven helpers are defined and succeed. *)
Definition sample_namespace : Namespace :=
  {| extract_required_skills := Some (fun _ => Ok ["python"; "sql"]);
     extract_skills := Some (fun _ => Ok ["python"]);
     extract_experience_level := Some (fun _ => Ok 3);
     extract_experience_years := Some (fun _ => Ok 5);
     extract_education_requirements := Some (fun _ => Ok ["bachelor"]);
     extract_education := Some (fun _ => Ok ["master"]);
     is_well_formatted := Some (fun _ => Ok true) |}.

(** ** Statements of the specification, in its words *)

(** "[|resume_words ∩ job_words| / |job_words| * 100 * 0.8] (and 0 when the
    job description has no words)" *)
Definition overlap_score (resume_text job_description : string) : float :=
  let resume_words := word_set resume_text in
  let job_words := word_set job_description in
  if (size job_words =? 0)%nat then 0%float
  else (Num.of_nat (size (resume_words ∩ job_words)) / Num.of_nat (size job_words)
        * 100 * 0.8)%float.

(** "all sub-words longer than 3 characters are present in the cleaned
    resume" *)
Definition long_parts_present (clean kw : string) : Prop :=
  Forall (fun part => Str.contains part clean = true) (long_parts (Str.split kw)).

(** "their first-occurrence positions span less than [d] characters" *)
Definition positions_span_below (d : Z) (clean kw : string) : Prop :=
  let parts := long_parts (Str.split kw) in
  Forall (fun p => Forall (fun q => Str.find p clean - Str.find q clean < d) parts) parts.

(** "at least 70% of its sub-words (length > 3) are present anywhere in the
    cleaned resume", the share being taken among the sub-words longer than 3
    characters. *)
Definition seventy_percent_of_long_parts (clean kw : string) : Prop :=
  let parts := long_parts (Str.split kw) in
  (7 * length parts <= 10 * length (filter (fun part => Str.contains part clean) parts))%nat.

(** The same share taken among all the sub-words of the keyword, as the
    comparison [count >= len(kw_parts) * 0.7] computes it. *)
Definition seventy_percent_of_parts (clean kw : string) : Prop :=
  PrimFloat.leb (Num.of_nat (length (Str.split kw)) * 0.7)%float
                (Num.of_nat (parts_present clean (Str.split kw))) = true.

(** ** Quantities the properties are stated on *)

Section Quantities.

Context {lib : Library}.

(** [total_bullets] of [check_formatting]. *)
Definition total_bullets (resume_text : string) : nat :=
  (Str.count "•" resume_text + Str.count "- " resume_text + Str.count "* " resume_text
   + length (re_findall "\n\s*\d+\." resume_text))%nat.

(** [headers_count] of [check_formatting]. *)
Definition headers_count (resume_text : string) : nat :=
  fold_left (fun n pattern => (n + length (re_findall pattern resume_text))%nat)
            format_header_patterns 0%nat.

End Quantities.

(** The formatting score as a function of the two density scores and of
    the numbers of date and contact patterns found. *)
Definition formatting_total (bullets headers : float) (dates contacts : nat) : float :=
  Num.fmin
    (0 + bullets + headers
     + Num.fmin 0.15 (Num.of_nat dates * 0.05)
     + Num.fmin 0.15 (Nat.iter contacts (fun c => c + 0.05) 0))%float
    1.0%float.

(** The exact whole-phrase test of the matching loop. *)
Definition exact_match (clean kw : string) : bool :=
  Str.contains (" " +:+ kw +:+ " ") (" " +:+ clean +:+ " ").

(** A keyword the loop cannot place: it holds a blank, has no exact match
    and none of its sub-words is longer than 3 characters. *)
Definition no_position (clean kw : string) : bool :=
  negb (exact_match clean kw) && Str.contains " " kw
  && bool_decide (long_parts (Str.split kw) = []).

(** The contributions a matched keyword of weight [w] can have. *)
Definition contributions (w : float) : list float :=
  [ w; (w * 0.9)%float; (w * 0.7)%float; (w * 0.6)%float ].


(** The keys of a result of the method, and of the combined entry point. *)
Definition method_keys : gset string :=
  {[ "ats_score"; "format_analysis"; "content_analysis" ]}.

Definition result_keys : gset string :=
  method_keys ∪ {[ "strengths"; "weaknesses"; "improvements" ]}.

(** The four section names [_analyze_format] looks for. *)
Definition format_sections : list string :=
  ["education"; "experience"; "skills"; "projects"].

(** * Properties *)

(** ** Built-ins and helpers on concrete inputs *)

Example lower_ex : Str.lower "Work History: AWS" = "work history: aws".
Proof. reflexivity. Qed.

Example split_ex :
  Str.split ("  big  data" +:+ Str.nl +:+ " tools ") = ["big"; "data"; "tools"].
Proof. reflexivity. Qed.

Example strip_ex : Str.strip "  a b  " = "a b" /\ Str.strip "   " = "".
Proof. split; reflexivity. Qed.

Example find_ex : Str.find "data" "big data" = 4 /\ Str.find "x" "big data" = -1.
Proof. split; reflexivity. Qed.

Example count_ex : Str.count "aa" "aaaaa" = 2%nat /\ Str.count "- " "- a - b" = 2%nat.
Proof. split; reflexivity. Qed.

Example format_keyword_field :
  format_keyword "\b({keyword})\s*:" "skills" = Ok "\b(skills)\s*:".
Proof. reflexivity. Qed.

Example format_keyword_plain :
  format_keyword "\n\s*(skills)\s*[^\n]*\n\s*\d+\." "degree"
  = Ok "\n\s*(skills)\s*[^\n]*\n\s*\d+\.".
Proof. reflexivity. Qed.

Example base_weight_additive :
  base_weight "AWS Lambda" = (1.0 + 0.5 + 0.4)%float
  /\ base_weight "React" = (1.0 + 0.5 + 0.3)%float
  /\ base_weight "teamwork" = 1.0%float.
Proof. repeat split. Qed.

Example keyword_importance_merges :
  keyword_importance ["Python"; "teamwork"; "python"]
  = [("python", 1.5%float); ("teamwork", 1.0%float)].
Proof. reflexivity. Qed.

(** Bullets are counted without the library: six markers score 0.25. *)
Example check_formatting_bullets :
  @check_formatting inert_library "- a - b - c * d * e • f" = 0.25%float.
Proof. reflexivity. Qed.

(** ** The section detector *)

Section SectionDetector.

Context {lib : Library}.

(** The pattern list cannot be built while the local [keyword] is
    unassigned. *)
Lemma header_patterns_unbound :
  header_patterns None = Raise (UnboundLocalError "keyword").
Proof. reflexivity. Qed.

(** Once a keyword loop has run, the list is built without error. *)
Lemma header_patterns_bound (kw : string) :
  exists patterns, header_patterns (Some kw) = Ok patterns /\ length patterns = 5%nat.
Proof. eexists. split; reflexivity. Qed.

(** [check_sections] enters its first section with [keyword] unassigned:
    it raises on every text. *)
Lemma check_sections_raises (resume_text : string) :
  check_sections resume_text = Raise (UnboundLocalError "keyword").
Proof. reflexivity. Qed.

(** [ats_score] propagates that error whenever it gets past its guard. *)
Lemma ats_score_nonempty (resume_text : string) (job_keywords : list string) :
  Str.is_empty resume_text = false ->
  job_keywords <> [] ->
  ats_score resume_text job_keywords = Raise (UnboundLocalError "keyword").
Proof.
  intros Ht Hk. unfold ats_score. rewrite Ht.
  rewrite bool_decide_eq_false_2 by exact Hk.
  reflexivity.
Qed.

(** Entered with [keyword] assigned, as a second section would be, the
    iteration goes through: the error is the read before the first loop. *)
Example section_step_bound :
  @section_step inert_library "skills: python" (Some "professional journey", [])
     ("education", ["education"; "degree"])
  = Ok (Some "degree", [("education", 0.0%float)]).
Proof. reflexivity. Qed.

Lemma ats_score_empty_text (job_keywords : list string) :
  ats_score "" job_keywords = Ok 0%float.
Proof. reflexivity. Qed.

Lemma ats_score_empty_keywords (resume_text : string) :
  ats_score resume_text [] = Ok 0%float.
Proof. unfold ats_score. destruct (Str.is_empty resume_text); reflexivity. Qed.

End SectionDetector.

(** ** The insight generator *)

Section InsightFacts.

Variable ns : Namespace.

Lemma identify_strengths_recovered (resume_text job_description : string) :
  identify_strengths ns resume_text job_description
  = Ok (recovered (identify_strengths_body ns resume_text job_description)).
Proof.
  unfold identify_strengths.
  destruct (identify_strengths_body ns resume_text job_description); reflexivity.
Qed.

Lemma identify_weaknesses_recovered (resume_text job_description : string) :
  identify_weaknesses ns resume_text job_description
  = Ok (recovered (identify_weaknesses_body ns resume_text job_description)).
Proof.
  unfold identify_weaknesses.
  destruct (identify_weaknesses_body ns resume_text job_description); reflexivity.
Qed.

Lemma suggest_improvements_recovered (resume_text job_description : string) :
  suggest_improvements ns resume_text job_description
  = Ok (recovered (suggest_improvements_body ns resume_text job_description)).
Proof.
  unfold suggest_improvements.
  destruct (suggest_improvements_body ns resume_text job_description); reflexivity.
Qed.

(** The update of the result with the three insight lists always goes
    through. *)
Lemma with_insights_ok (resume_text job_description : string) (result : gmap string value) :
  with_insights ns resume_text job_description result
  = Ok (<[ "improvements" :=
             VStrings (recovered (suggest_improvements_body ns resume_text job_description)) ]>
        (<[ "weaknesses" :=
             VStrings (recovered (identify_weaknesses_body ns resume_text job_description)) ]>
        (<[ "strengths" :=
             VStrings (recovered (identify_strengths_body ns resume_text job_description)) ]>
         result))).
Proof.
  unfold with_insights.
  rewrite identify_strengths_recovered, identify_weaknesses_recovered,
    suggest_improvements_recovered.
  reflexivity.
Qed.

End InsightFacts.

(** C9: [identify_strengths], [identify_weaknesses] and
    [suggest_improvements] never raise, whatever the helpers they call do
    and on every pair of texts: each returns the list its [try] body built,
    and the empty list when that body failed. *)
Theorem insights_never_raise (ns : Namespace) (resume_text job_description : string) :
  identify_strengths ns resume_text job_description
  = Ok (recovered (identify_strengths_body ns resume_text job_description))
  /\ identify_weaknesses ns resume_text job_description
     = Ok (recovered (identify_weaknesses_body ns resume_text job_description))
  /\ suggest_improvements ns resume_text job_description
     = Ok (recovered (suggest_improvements_body ns resume_text job_description)).
Proof.
  split; [|split].
  - apply identify_strengths_recovered.
  - apply identify_weaknesses_recovered.
  - apply suggest_improvements_recovered.
Qed.

(** In the module as it stands the first helper call of each body already
    fails. *)
Lemma module_bodies_fail (resume_text job_description : string) :
  identify_strengths_body module_namespace resume_text job_description
  = Raise (NameError "extract_required_skills")
  /\ identify_weaknesses_body module_namespace resume_text job_description
     = Raise (NameError "extract_required_skills")
  /\ suggest_improvements_body module_namespace resume_text job_description
     = Raise (NameError "extract_required_skills").
Proof. repeat split. Qed.

(** C10: with the names the module defines, the three insight functions
    return the empty list on every pair of texts. *)
Theorem insights_always_empty (resume_text job_description : string) :
  identify_strengths module_namespace resume_text job_description = Ok []
  /\ identify_weaknesses module_namespace resume_text job_description = Ok []
  /\ suggest_improvements module_namespace resume_text job_description = Ok [].
Proof. repeat split. Qed.

(** With helpers that are defined and succeed, the lists are not empty: the
    empty result of the module comes from the missing names alone. *)
Example sample_strengths :
  identify_strengths sample_namespace "resume" "job"
  = Ok [ "Strong match with required skills: python";
         "Meets or exceeds required experience level (3 years)";
         "Well-formatted resume with clear sections" ].
Proof. reflexivity. Qed.

Example sample_weaknesses :
  identify_weaknesses sample_namespace "resume" "job"
  = Ok [ "Missing required skills: sql"; "Does not meet education requirements" ].
Proof. reflexivity. Qed.

Example sample_improvements :
  suggest_improvements sample_namespace "resume" "job"
  = Ok [ "Add missing required skills: sql"; "Consider adding bachelor education" ].
Proof. reflexivity. Qed.

(** A helper that raises is absorbed as well. *)
Example raising_helper_absorbed :
  identify_strengths
    {| extract_required_skills := Some (fun _ => Raise (ValueError "bad description"));
       extract_skills := None; extract_experience_level := None;
       extract_experience_years := None; extract_education_requirements := None;
       extract_education := None; is_well_formatted := None |}
    "" "" = Ok [].
Proof. reflexivity. Qed.

(** ** The semantic scorer *)

Section ScorerFacts.

Context {prov : Provider}.

(** The method never raises. *)
Lemma method_returns (self : ATSScorer.t) (resume_text job_description : string) :
  exists d, ATSScorer.calculate_ats_score self resume_text job_description = Ok d.
Proof.
  unfold ATSScorer.calculate_ats_score.
  destruct (ATSScorer.initialized self); simpl; [|eauto].
  destruct (ATSScorer.similarity_result self resume_text job_description); simpl; eauto.
Qed.

(** Without a loaded model, or when the similarity computation fails, the
    method returns the basic result. *)
Lemma method_degraded (self : ATSScorer.t) (resume_text job_description : string) :
  ATSScorer.initialized self = false
  \/ (exists e, ATSScorer.similarity_result self resume_text job_description = Raise e) ->
  ATSScorer.calculate_ats_score self resume_text job_description
  = Ok (ATSScorer._basic_ats_score resume_text job_description).
Proof.
  intros [Hi | [e He]]; unfold ATSScorer.calculate_ats_score.
  - rewrite Hi. reflexivity.
  - destruct (ATSScorer.initialized self); simpl; [|reflexivity].
    rewrite He. reflexivity.
Qed.

Lemma basic_ats_score_value (resume_text job_description : string) :
  ATSScorer._basic_ats_score resume_text job_description !! "ats_score"
  = Some (VFloat (overlap_score resume_text job_description)).
Proof.
  unfold ATSScorer._basic_ats_score, overlap_score.
  rewrite !lookup_insert_ne by discriminate.
  rewrite lookup_insert_eq. do 2 f_equal.
  destruct (decide (word_set job_description = ∅)) as [He | Hne].
  - rewrite bool_decide_eq_true_2 by exact He.
    rewrite He, size_empty. reflexivity.
  - rewrite bool_decide_eq_false_2 by exact Hne.
    assert (Hs : size (word_set job_description) <> 0%nat)
      by (intros H0; apply Hne, leibniz_equiv, size_empty_inv, H0).
    apply Nat.eqb_neq in Hs. rewrite Hs. reflexivity.
Qed.

Lemma basic_ats_score_keys (resume_text job_description : string) :
  is_Some (ATSScorer._basic_ats_score resume_text job_description !! "format_analysis")
  /\ is_Some (ATSScorer._basic_ats_score resume_text job_description !! "content_analysis").
Proof.
  unfold ATSScorer._basic_ats_score. split.
  - rewrite lookup_insert_ne by discriminate. rewrite lookup_insert_eq. eauto.
  - rewrite lookup_insert_eq. eauto.
Qed.

Variable ns : Namespace.

Lemma get_ats_scorer_set (p : Process) :
  _ats_scorer (snd (get_ats_scorer p)) = Some (fst (get_ats_scorer p)).
Proof.
  unfold get_ats_scorer. destruct (_ats_scorer p) eqn:E; simpl; [exact E | reflexivity].
Qed.

Lemma get_ats_scorer_kept (p : Process) (scorer : ATSScorer.t) :
  _ats_scorer p = Some scorer -> get_ats_scorer p = (scorer, p).
Proof. intros E. unfold get_ats_scorer. rewrite E. reflexivity. Qed.

(** A provider load is attempted exactly when the global is still unset. *)
Lemma get_ats_scorer_loads (p : Process) :
  loads (snd (get_ats_scorer p))
  = (loads p + match _ats_scorer p with Some _ => 0 | None => 1 end)%nat.
Proof.
  unfold get_ats_scorer. destruct (_ats_scorer p); simpl; lia.
Qed.

(** The combined entry point, by the scorer it obtains. *)
Lemma calculate_ats_score_eq (resume_text job_description : string) (p : Process) :
  calculate_ats_score ns resume_text job_description p
  = (try_except
       (do result <- ATSScorer.calculate_ats_score (fst (get_ats_scorer p))
                       resume_text job_description;
        with_insights ns resume_text job_description result)
       (fun _ => Ok empty_result),
     snd (get_ats_scorer p)).
Proof.
  unfold calculate_ats_score. destruct (get_ats_scorer p). reflexivity.
Qed.

Lemma calculate_ats_score_returns (resume_text job_description : string) (p : Process) :
  exists d, fst (calculate_ats_score ns resume_text job_description p) = Ok d.
Proof.
  rewrite calculate_ats_score_eq. simpl.
  destruct (method_returns (fst (get_ats_scorer p)) resume_text job_description) as [d Hd].
  rewrite Hd. simpl. rewrite with_insights_ok. simpl. eauto.
Qed.

Lemma calculate_ats_score_degraded (resume_text job_description : string) (p : Process) :
  ATSScorer.initialized (fst (get_ats_scorer p)) = false
  \/ (exists e, ATSScorer.similarity_result (fst (get_ats_scorer p))
                  resume_text job_description = Raise e) ->
  fst (calculate_ats_score ns resume_text job_description p)
  = with_insights ns resume_text job_description
      (ATSScorer._basic_ats_score resume_text job_description).
Proof.
  intros H. rewrite calculate_ats_score_eq. simpl.
  rewrite (method_degraded _ _ _ H). simpl.
  rewrite with_insights_ok. reflexivity.
Qed.

End ScorerFacts.

(** C4: when the scorer the process obtains is not initialized, or its
    embedding/similarity computation raises, both the method and the
    combined entry point return a dict that holds the keys [ats_score],
    [format_analysis] and [content_analysis], and whose [ats_score] is
    [|resume_words ∩ job_words| / |job_words| * 100 * 0.8], 0 when the job
    description has no words. *)
Theorem degraded_mode_result {prov : Provider} (ns : Namespace)
    (resume_text job_description : string) (p : Process) :
  ATSScorer.initialized (fst (get_ats_scorer p)) = false
  \/ (exists e, ATSScorer.similarity_result (fst (get_ats_scorer p))
                  resume_text job_description = Raise e) ->
  (exists d,
     ATSScorer.calculate_ats_score (fst (get_ats_scorer p)) resume_text job_description = Ok d
     /\ d !! "ats_score" = Some (VFloat (overlap_score resume_text job_description))
     /\ is_Some (d !! "format_analysis") /\ is_Some (d !! "content_analysis"))
  /\ (exists d,
        fst (calculate_ats_score ns resume_text job_description p) = Ok d
        /\ d !! "ats_score" = Some (VFloat (overlap_score resume_text job_description))
        /\ is_Some (d !! "format_analysis") /\ is_Some (d !! "content_analysis")).
Proof.
  intros H.
  pose proof (basic_ats_score_value resume_text job_description) as Hv.
  destruct (basic_ats_score_keys resume_text job_description) as [Hf Hc].
  split.
  - eexists. split; [apply method_degraded, H|]. auto.
  - rewrite calculate_ats_score_degraded by exact H.
    rewrite with_insights_ok. eexists. split; [reflexivity|].
    rewrite !lookup_insert_ne by discriminate. auto.
Qed.

(** A run of C4: the first load fails, the texts share one of the two words
    of the job description. *)
Lemma degraded_mode_result_witness :
  @ATSScorer.initialized failing_provider
     (fst (@get_ats_scorer failing_provider (@fresh failing_provider))) = false
  /\ exists d,
       fst (@calculate_ats_score failing_provider module_namespace
              "Python and SQL" "python docker" (@fresh failing_provider)) = Ok d
       /\ d !! "ats_score" = Some (VFloat (overlap_score "Python and SQL" "python docker"))
       /\ is_Some (d !! "format_analysis") /\ is_Some (d !! "content_analysis").
Proof.
  split; [reflexivity|].
  apply (@degraded_mode_result failing_provider module_namespace
           "Python and SQL" "python docker" (@fresh failing_provider)).
  left. reflexivity.
Defined.

Example overlap_score_half : overlap_score "Python and SQL" "python docker" = 40%float.
Proof. vm_compute. reflexivity. Qed.

Example overlap_score_no_words : overlap_score "Python and SQL" "   " = 0%float.
Proof. vm_compute. reflexivity. Qed.

(** A failing [encode] with a loaded model gives the same basic score. *)
Example broken_encoder_score :
  exists d,
    fst (@calculate_ats_score broken_encoder module_namespace
           "Python and SQL" "python docker" (@fresh broken_encoder)) = Ok d
    /\ d !! "ats_score" = Some (VFloat 40%float).
Proof.
  destruct (@degraded_mode_result broken_encoder module_namespace
              "Python and SQL" "python docker" (@fresh broken_encoder))
    as [_ [d (Hd & Hs & _)]].
  - right. eexists. reflexivity.
  - exists d. split; [exact Hd|]. rewrite Hs. vm_compute. reflexivity.
Qed.

(** ** Sequences of calls *)

Section CallFacts.

Context {lib : Library} {prov : Provider}.
Variable ns : Namespace.

Lemma exec_calculate (resume_text job_description : string) (p : Process) :
  exec ns (CalculateAtsScore resume_text job_description) p
  = (Analysis (fst (calculate_ats_score ns resume_text job_description p)),
     snd (get_ats_scorer p)).
Proof. simpl. rewrite calculate_ats_score_eq. reflexivity. Qed.

(** Once the global is set, no call changes the process. *)
Lemma exec_scorer_kept (c : call) (p : Process) (scorer : ATSScorer.t) :
  _ats_scorer p = Some scorer -> snd (exec ns c p) = p.
Proof.
  intros E. destruct c as [t k | r j]; [reflexivity|].
  rewrite exec_calculate. simpl. rewrite (get_ats_scorer_kept _ _ E). reflexivity.
Qed.

Lemma run_scorer_kept (calls : list call) (p : Process) (scorer : ATSScorer.t) :
  _ats_scorer p = Some scorer -> snd (run ns calls p) = p.
Proof.
  revert p. induction calls as [|c rest IH]; intros p E; [reflexivity|].
  simpl. pose proof (exec_scorer_kept c p scorer E) as Hc.
  destruct (exec ns c p) as [o p1]. simpl in Hc. subst p1.
  specialize (IH p E). destruct (run ns rest p) as [os p2]. exact IH.
Qed.

(** What a call returns depends on the process through the scorer it
    obtains only. *)
Lemma exec_same_scorer (c : call) (p q : Process) :
  fst (get_ats_scorer p) = fst (get_ats_scorer q) ->
  fst (exec ns c p) = fst (exec ns c q).
Proof.
  intros E. destruct c as [t k | r j]; [reflexivity|].
  rewrite !exec_calculate, !calculate_ats_score_eq. simpl. rewrite E. reflexivity.
Qed.

(** After a call of the combined entry point the global holds the scorer
    that call obtained. *)
Lemma exec_fixes_scorer (c : call) (p : Process) :
  fst (get_ats_scorer (snd (exec ns c p))) = fst (get_ats_scorer p).
Proof.
  destruct c as [t k | r j]; [reflexivity|].
  rewrite exec_calculate. simpl.
  rewrite (get_ats_scorer_kept _ _ (get_ats_scorer_set p)). reflexivity.
Qed.

Lemma run_fixes_scorer (calls : list call) (p : Process) :
  fst (get_ats_scorer (snd (run ns calls p))) = fst (get_ats_scorer p).
Proof.
  revert p. induction calls as [|c rest IH]; intros p; [reflexivity|].
  simpl. pose proof (exec_fixes_scorer c p) as Hc.
  destruct (exec ns c p) as [o p1]. simpl in Hc.
  specialize (IH p1). destruct (run ns rest p1) as [os p2]. simpl in *.
  congruence.
Qed.

(** With a scorer that is not initialized every call takes the basic
    path and leaves the process as it is. *)
Lemma run_degraded (calls : list call) (p : Process) (scorer : ATSScorer.t) :
  _ats_scorer p = Some scorer ->
  ATSScorer.initialized scorer = false ->
  run ns calls p = (map (degraded ns) calls, p).
Proof.
  intros E Hi. induction calls as [|c rest IH]; [reflexivity|].
  assert (Hc : exec ns c p = (degraded ns c, p)).
  { destruct c as [t k | r j]; [reflexivity|].
    rewrite exec_calculate.
    rewrite (calculate_ats_score_degraded ns r j p)
      by (left; rewrite (get_ats_scorer_kept _ _ E); exact Hi).
    rewrite (get_ats_scorer_kept _ _ E). reflexivity. }
  cbn [run map]. rewrite Hc, IH. reflexivity.
Qed.

End CallFacts.

(** C7: when the first provider load of a process fails, every later call
    of [calculate_ats_score] returns the result of the basic path and the
    process never attempts a second load, whatever later loads would give; a
    load is attempted on an access to the process-wide scorer exactly when
    the global is still unset. *)
Theorem first_failure_is_permanent {lib : Library} {prov : Provider}
    (ns : Namespace) (e : exn) (calls : list call) :
  get_sentence_transformer 0 = Raise e ->
  fst (run ns calls fresh) = map (degraded ns) calls
  /\ loads (snd (run ns calls fresh)) = (if existsb is_calculate calls then 1 else 0)%nat
  /\ forall p : Process,
       loads (snd (get_ats_scorer p))
       = (loads p + match _ats_scorer p with Some _ => 0 | None => 1 end)%nat.
Proof.
  intros Hload. split; [|split]; [| |apply get_ats_scorer_loads].
  - induction calls as [|c rest IH]; [reflexivity|].
    destruct c as [t k | r j].
    + cbn [run exec map]. destruct (run ns rest fresh) as [os p]. simpl in *.
      now rewrite IH.
    + cbn [run map]. rewrite exec_calculate.
      rewrite (calculate_ats_score_degraded ns r j fresh)
        by (left; unfold get_ats_scorer, ATSScorer.init, ATSScorer._initialize_model;
            simpl; rewrite Hload; reflexivity).
      erewrite run_degraded.
      * reflexivity.
      * apply get_ats_scorer_set.
      * unfold get_ats_scorer, ATSScorer.init, ATSScorer._initialize_model.
        simpl. rewrite Hload. reflexivity.
  - induction calls as [|c rest IH]; [reflexivity|].
    destruct c as [t k | r j].
    + cbn [run exec existsb is_calculate orb]. destruct (run ns rest fresh) as [os p].
      exact IH.
    + cbn [run existsb is_calculate orb]. rewrite exec_calculate.
      erewrite run_degraded.
      * reflexivity.
      * apply get_ats_scorer_set.
      * unfold get_ats_scorer, ATSScorer.init, ATSScorer._initialize_model.
        simpl. rewrite Hload. reflexivity.
Qed.

(** A run of C7: the second load would succeed and is never attempted. *)
Lemma first_failure_is_permanent_witness :
  @get_sentence_transformer failing_provider 0 = Raise (RuntimeError "model unavailable")
  /\ @get_sentence_transformer failing_provider 1 = Ok tt
  /\ let calls := [ CalculateAtsScore "Python and SQL" "python docker";
                    AtsScore "Python and SQL" ["python"];
                    CalculateAtsScore "Python and SQL" "python docker" ] in
     fst (@run inert_library failing_provider module_namespace calls fresh)
     = map (@degraded inert_library module_namespace) calls
     /\ loads (snd (@run inert_library failing_provider module_namespace calls fresh)) = 1%nat.
Proof.
  split; [reflexivity|]. split; [reflexivity|].
  intros calls.
  destruct (@first_failure_is_permanent inert_library failing_provider module_namespace
              (RuntimeError "model unavailable") calls) as (Hout & Hloads & _).
  - reflexivity.
  - split; [exact Hout | exact Hloads].
Defined.

(** C8: in any process, a call repeated with the same arguments returns
    what it returned the first time, whatever calls were made in between,
    for [ats_score] and for [calculate_ats_score]; the scorer the process
    obtains, and with it the mode, is the one fixed by the first access. *)
Theorem repeated_call_same_output {lib : Library} {prov : Provider}
    (ns : Namespace) (c : call) (between : list call) (p : Process) :
  fst (exec ns c (snd (run ns between (snd (exec ns c p))))) = fst (exec ns c p)
  /\ fst (get_ats_scorer (snd (run ns between (snd (exec ns c p)))))
     = fst (get_ats_scorer p).
Proof.
  assert (H : fst (get_ats_scorer (snd (run ns between (snd (exec ns c p)))))
              = fst (get_ats_scorer p))
    by (rewrite run_fixes_scorer, exec_fixes_scorer; reflexivity).
  split; [|exact H].
  apply exec_same_scorer, H.
Qed.

(** C1 (defect of the code): on every non-empty resume text with every
    non-empty keyword list [ats_score] returns no float at all: it raises
    [UnboundLocalError], because [check_sections] reads its local [keyword]
    before any loop has assigned it. *)
Theorem ats_score_raises {lib : Library}
    (c : ascii) (text : string) (kw : string) (kws : list string) :
  ats_score (String c text) (kw :: kws) = Raise (UnboundLocalError "keyword").
Proof. apply ats_score_nonempty; [reflexivity | discriminate]. Qed.

(** C2 (defect of the code): [ats_score] lets the [UnboundLocalError] of
    [check_sections] reach its caller; [calculate_ats_score] does return a
    result on every input and in every process. *)
Theorem entry_points_errors {lib : Library} {prov : Provider} (ns : Namespace) :
  ats_score "Python developer" ["python"] = Raise (UnboundLocalError "keyword")
  /\ forall (resume_text job_description : string) (p : Process),
       exists d, fst (calculate_ats_score ns resume_text job_description p) = Ok d.
Proof.
  split; [reflexivity|].
  intros. apply calculate_ats_score_returns.
Qed.

(** C3 (defect of the code): [ats_score] returns exactly 0.0 on an empty
    text and on an empty keyword list; on non-empty input it raises instead
    of returning the rounded weighted sum. *)
Theorem ats_score_zero_or_error {lib : Library} :
  (forall job_keywords, ats_score "" job_keywords = Ok 0%float)
  /\ (forall resume_text, ats_score resume_text [] = Ok 0%float)
  /\ ats_score "Skills: Python, Docker" ["python"; "docker"]
     = Raise (UnboundLocalError "keyword").
Proof.
  split; [|split].
  - apply ats_score_empty_text.
  - apply ats_score_empty_keywords.
  - reflexivity.
Qed.

(** C5 (defect of the code): on a text with a capitalised header
    [ats_score] produces no formatting contribution, since it raises; and
    the text it hands to its analyzers is the lower-cased copy, which
    differs from the caller's text. *)
Theorem formatting_input_lowered {lib : Library} :
  let raw := Str.nl +:+ "SKILLS:" +:+ Str.nl +:+ "- Python" +:+ Str.nl in
  ats_score raw ["python"] = Raise (UnboundLocalError "keyword")
  /\ Str.lower raw <> raw
  /\ Str.lower raw = Str.nl +:+ "skills:" +:+ Str.nl +:+ "- python" +:+ Str.nl.
Proof.
  split; [reflexivity|]. split; [discriminate | reflexivity].
Qed.

(** ** Dicts *)

Lemma dict_get_set_eq {V : Type} (k : string) (v : V) (d : Dict.t V) :
  Dict.get k (Dict.set k v d) = Some v.
Proof.
  induction d as [|[k' v'] d IH]; simpl.
  - rewrite String.eqb_refl. reflexivity.
  - destruct (String.eqb k k') eqn:E; simpl.
    + rewrite String.eqb_refl. reflexivity.
    + rewrite E. exact IH.
Qed.

Lemma dict_get_set_ne {V : Type} (k k' : string) (v : V) (d : Dict.t V) :
  k <> k' -> Dict.get k (Dict.set k' v d) = Dict.get k d.
Proof.
  intros Hne. induction d as [|[k2 v2] d IH]; simpl.
  - apply String.eqb_neq in Hne. rewrite Hne. reflexivity.
  - destruct (String.eqb k' k2) eqn:E; simpl.
    + apply String.eqb_eq in E. subst k2.
      apply String.eqb_neq in Hne. rewrite Hne. reflexivity.
    + destruct (String.eqb k k2); [reflexivity | exact IH].
Qed.

Lemma dict_keys_set {V : Type} (k k' : string) (v : V) (d : Dict.t V) :
  In k (Dict.keys (Dict.set k' v d)) <-> k = k' \/ In k (Dict.keys d).
Proof.
  unfold Dict.keys. induction d as [|[k2 v2] d IH]; simpl.
  - intuition.
  - destruct (String.eqb k' k2) eqn:E; simpl.
    + apply String.eqb_eq in E. subst k2. intuition.
    + rewrite IH. intuition.
Qed.

Lemma dict_set_nodup {V : Type} (k : string) (v : V) (d : Dict.t V) :
  List.NoDup (Dict.keys d) -> List.NoDup (Dict.keys (Dict.set k v d)).
Proof.
  unfold Dict.keys. induction d as [|[k2 v2] d IH]; simpl; intros Hd.
  - constructor; [intros [] | constructor].
  - inversion Hd as [|? ? Hnin Hd']; subst.
    destruct (String.eqb k k2) eqn:E; simpl.
    + apply String.eqb_eq in E. subst k2. constructor; assumption.
    + constructor; [|apply IH, Hd'].
      intros Hin. apply (dict_keys_set k2 k v d) in Hin. destruct Hin as [-> | Hin].
      * rewrite String.eqb_refl in E. discriminate.
      * exact (Hnin Hin).
Qed.

(** The keys of [keyword_importance] are distinct: a keyword is matched in
    one iteration only. *)
Lemma keyword_importance_nodup (job_keywords : list string) :
  List.NoDup (Dict.keys (keyword_importance job_keywords)).
Proof.
  unfold keyword_importance.
  assert (H : forall d : Dict.t float, List.NoDup (Dict.keys d) ->
              List.NoDup (Dict.keys
                (fold_left (fun d kw => Dict.set (Str.lower kw) (base_weight kw) d)
                           job_keywords d))).
  { induction job_keywords as [|kw rest IH]; intros d Hd; simpl; [exact Hd|].
    apply IH, dict_set_nodup, Hd. }
  apply H. constructor.
Qed.

(** ** Positions of the sub-words *)

Lemma find_from_found (sub s : string) (i : Z) :
  Str.contains sub s = true -> i <= Str.find_from i sub s.
Proof.
  revert i. induction s as [|c s IH]; intros i; cbn [Str.contains Str.find_from].
  - destruct (String.prefix sub ""); cbn [orb]; intros H; [lia | discriminate].
  - destruct (String.prefix sub (String c s)); cbn [orb]; intros H; [lia|].
    specialize (IH (i + 1) H). lia.
Qed.

Lemma find_found (sub s : string) :
  Str.contains sub s = true -> Str.find sub s <> -1.
Proof. intros H. pose proof (find_from_found sub s 0 H). unfold Str.find. lia. Qed.

Lemma fold_max_bounds (l : list Z) (x : Z) :
  In (fold_left Z.max l x) (x :: l)
  /\ forall y, In y (x :: l) -> y <= fold_left Z.max l x.
Proof.
  revert x. induction l as [|a l IH]; intros x; simpl.
  - split; [now left|]. intros y [<- | []]. lia.
  - destruct (IH (Z.max x a)) as [Hin Hle]. split.
    + destruct Hin as [Hm | Hin]; [|right; right; exact Hin].
      destruct (Z.max_spec x a) as [[_ Hx] | [_ Hx]]; [right; left | left]; congruence.
    + intros y Hy.
      assert (Hxa : x <= fold_left Z.max l (Z.max x a) /\ a <= fold_left Z.max l (Z.max x a)).
      { pose proof (Hle (Z.max x a) (or_introl eq_refl)). lia. }
      destruct Hy as [<- | [<- | Hy]]; [lia | lia |].
      apply Hle. right. exact Hy.
Qed.

Lemma fold_min_bounds (l : list Z) (x : Z) :
  In (fold_left Z.min l x) (x :: l)
  /\ forall y, In y (x :: l) -> fold_left Z.min l x <= y.
Proof.
  revert x. induction l as [|a l IH]; intros x; simpl.
  - split; [now left|]. intros y [<- | []]. lia.
  - destruct (IH (Z.min x a)) as [Hin Hle]. split.
    + destruct Hin as [Hm | Hin]; [|right; right; exact Hin].
      destruct (Z.min_spec x a) as [[_ Hx] | [_ Hx]]; [left | right; left]; congruence.
    + intros y Hy.
      assert (Hxa : fold_left Z.min l (Z.min x a) <= x /\ fold_left Z.min l (Z.min x a) <= a).
      { pose proof (Hle (Z.min x a) (or_introl eq_refl)). lia. }
      destruct Hy as [<- | [<- | Hy]]; [lia | lia |].
      apply Hle. right. exact Hy.
Qed.

(** ** The keyword matcher *)

(** As soon as the keyword has a sub-word longer than 3 characters, the
    proximity test returns, and it holds exactly when all those sub-words
    are present with first occurrences less than 50 characters apart. *)
Lemma parts_close_spec (clean kw : string) :
  long_parts (Str.split kw) <> [] ->
  exists b, parts_close clean (Str.split kw) = Ok b
            /\ (b = true <-> long_parts_present clean kw /\ positions_span_below 50 clean kw).
Proof.
  unfold parts_close, long_parts_present, positions_span_below.
  set (parts := long_parts (Str.split kw)). intros Hne.
  destruct (forallb (fun part => Str.contains part clean) parts) eqn:Hp.
  - pose proof (proj1 (forallb_forall _ _) Hp) as Hall.
    assert (Hpos : forallb (fun pos => negb (pos =? -1))
                     (map (fun part => Str.find part clean) parts) = true).
    { apply forallb_forall. intros pos Hin. apply in_map_iff in Hin.
      destruct Hin as (part & <- & Hin).
      apply negb_true_iff, Z.eqb_neq, find_found, Hall, Hin. }
    rewrite Hpos.
    destruct parts as [|p0 rest] eqn:Eparts; [congruence|].
    cbn [map Num.max_list Num.min_list bind].
    set (f := fun part => Str.find part clean) in *.
    change (Str.find p0 clean) with (f p0).
    destruct (fold_max_bounds (map f rest) (f p0)) as [Hmax_in Hmax].
    destruct (fold_min_bounds (map f rest) (f p0)) as [Hmin_in Hmin].
    change (f p0 :: map f rest) with (map f (p0 :: rest)) in *.
    eexists. split; [reflexivity|]. rewrite Z.ltb_lt. split.
    + intros Hlt. split.
      * apply List.Forall_forall. exact Hall.
      * apply List.Forall_forall. intros p Hp'. apply List.Forall_forall. intros q Hq.
        pose proof (Hmax (f p) (in_map f _ _ Hp')).
        pose proof (Hmin (f q) (in_map f _ _ Hq)).
        change (f p - f q < 50). lia.
    + intros [_ Hspan].
      apply in_map_iff in Hmax_in. destruct Hmax_in as (p & Hp' & Hpin).
      apply in_map_iff in Hmin_in. destruct Hmin_in as (q & Hq & Hqin).
      pose proof (proj1 (List.Forall_forall _ _) Hspan p Hpin) as Hrow.
      pose proof (proj1 (List.Forall_forall _ _) Hrow q Hqin) as Hpq.
      change (f p - f q < 50) in Hpq. lia.
  - exists false. split; [reflexivity|]. split; [discriminate|].
    intros [Hall _].
    pose proof (proj2 (forallb_forall _ _) (proj1 (List.Forall_forall _ _) Hall)).
    congruence.
Qed.

Section KeywordMatcher.

Context {lib : Library}.

(** The factor 0.9. *)
Lemma contribution_close (clean kw : string) (weight : float) :
  Str.contains " " kw = true ->
  Str.contains (" " +:+ kw +:+ " ") (" " +:+ clean +:+ " ") = false ->
  long_parts (Str.split kw) <> [] ->
  long_parts_present clean kw /\ positions_span_below 50 clean kw ->
  keyword_contribution clean kw weight = Ok (Some (weight * 0.9)%float).
Proof.
  intros Hsp Hex Hne Hclose. unfold keyword_contribution. rewrite Hex, Hsp.
  destruct (parts_close_spec clean kw Hne) as (b & Hb & Hiff).
  rewrite Hb. apply Hiff in Hclose. subst b. reflexivity.
Qed.

(** The factor 0.7. *)
Lemma contribution_most (clean kw : string) (weight : float) :
  Str.contains " " kw = true ->
  Str.contains (" " +:+ kw +:+ " ") (" " +:+ clean +:+ " ") = false ->
  long_parts (Str.split kw) <> [] ->
  ~ (long_parts_present clean kw /\ positions_span_below 50 clean kw) ->
  (2 < length (Str.split kw))%nat ->
  seventy_percent_of_parts clean kw ->
  keyword_contribution clean kw weight = Ok (Some (weight * 0.7)%float).
Proof.
  intros Hsp Hex Hne Hfar Hlen Hmost. unfold keyword_contribution. rewrite Hex, Hsp.
  destruct (parts_close_spec clean kw Hne) as (b & Hb & Hiff).
  rewrite Hb. destruct b; [exfalso; apply Hfar, Hiff; reflexivity|].
  cbn [bind]. unfold most_parts.
  apply Nat.ltb_lt in Hlen. rewrite Hlen. unfold seventy_percent_of_parts in Hmost.
  rewrite Hmost. reflexivity.
Qed.

(** A two-word keyword that fails the proximity test contributes through
    no tier: the 0.7 tier asks for more than two sub-words and the fuzzy
    tier for a single one. *)
Lemma contribution_two_words (clean kw : string) (weight : float) :
  Str.contains (" " +:+ kw +:+ " ") (" " +:+ clean +:+ " ") = false ->
  length (Str.split kw) = 2%nat ->
  parts_close clean (Str.split kw) = Ok false ->
  keyword_contribution clean kw weight = Ok None.
Proof.
  intros Hex Hlen Hfar. unfold keyword_contribution, most_parts.
  rewrite Hex, Hfar, Hlen. cbn [bind Nat.ltb Nat.leb Nat.eqb andb].
  destruct (Str.contains " " kw); reflexivity.
Qed.

(** Iterations for other keywords leave the entry of [kw] alone. *)
Lemma match_steps_other (clean kw : string) (items : Dict.t float)
    (matches0 matches : Dict.t float) :
  ~ In kw (Dict.keys items) ->
  foldM (match_step clean) items matches0 = Ok matches ->
  Dict.get kw matches = Dict.get kw matches0.
Proof.
  revert matches0. induction items as [|[k w] items IH]; intros matches0 Hnin Hrun.
  - simpl in Hrun. congruence.
  - cbn [foldM match_step] in Hrun.
    destruct (keyword_contribution clean k w) as [[v|]|e]; cbn [bind] in Hrun;
      try discriminate.
    + rewrite (IH _ (fun H => Hnin (or_intror H)) Hrun).
      apply dict_get_set_ne. intros ->. apply Hnin. now left.
    + exact (IH _ (fun H => Hnin (or_intror H)) Hrun).
Qed.

(** What the iteration of a keyword stores is what the loop ends with. *)
Lemma match_steps_entry (clean kw : string) (weight : float) (r : option float)
    (items : Dict.t float) (matches0 matches : Dict.t float) :
  List.NoDup (Dict.keys items) ->
  Dict.get kw items = Some weight ->
  keyword_contribution clean kw weight = Ok r ->
  foldM (match_step clean) items matches0 = Ok matches ->
  Dict.get kw matches = match r with Some v => Some v | None => Dict.get kw matches0 end.
Proof.
  revert matches0. induction items as [|[k w] items IH];
    intros matches0 Hnd Hget Hc Hrun; [discriminate|].
  cbn [Dict.keys map fst] in Hnd. inversion Hnd as [|? ? Hnin Hnd']; subst.
  cbn [Dict.get] in Hget. cbn [foldM match_step] in Hrun.
  destruct (String.eqb kw k) eqn:E.
  - apply String.eqb_eq in E. subst k. inversion Hget; subst w.
    rewrite Hc in Hrun. cbn [bind] in Hrun.
    destruct r as [v|].
    + rewrite (match_steps_other _ _ _ _ _ Hnin Hrun). apply dict_get_set_eq.
    + exact (match_steps_other _ _ _ _ _ Hnin Hrun).
  - destruct (keyword_contribution clean k w) as [[v|]|e]; cbn [bind] in Hrun;
      try discriminate.
    + rewrite (IH _ Hnd' Hget Hc Hrun). destruct r; [reflexivity|].
      apply dict_get_set_ne. intros ->. rewrite String.eqb_refl in E. discriminate.
    + exact (IH _ Hnd' Hget Hc Hrun).
Qed.

End KeywordMatcher.

(** For keywords of up to 100 sub-words the floating-point comparison
    [count >= len(kw_parts) * 0.7] is the integer comparison
    [10 * count >= 7 * len(kw_parts)]. *)
Lemma seventy_percent_exact (n k : nat) :
  (n <= 100)%nat -> (k <= n)%nat ->
  PrimFloat.leb (Num.of_nat n * 0.7)%float (Num.of_nat k) = (7 * n <=? 10 * k)%nat.
Proof.
  intros Hn Hk.
  assert (Htable :
    forallb (fun n => forallb (fun k =>
        Bool.eqb (PrimFloat.leb (Num.of_nat n * 0.7)%float (Num.of_nat k))
                 (7 * n <=? 10 * k)%nat) (seq 0 101)) (seq 0 101) = true)
    by (vm_compute; reflexivity).
  pose proof (proj1 (forallb_forall _ _) Htable n) as Hrow.
  assert (Hin : In n (seq 0 101)) by (apply in_seq; lia).
  pose proof (proj1 (forallb_forall _ _) (Hrow Hin) k) as Hcell.
  assert (Hik : In k (seq 0 101)) by (apply in_seq; lia).
  apply Bool.eqb_prop, Hcell, Hik.
Qed.

(** C6 (amended): when the matching loop completes, a keyword of the list
    that contains a blank, has no exact whole-phrase match and has a
    sub-word longer than 3 characters ends with [weight * 0.9] if all its
    sub-words longer than 3 characters are present in the cleaned resume
    with first occurrences less than 50 characters apart; otherwise it ends
    with [weight * 0.7] if it has more than two sub-words and the number of
    its sub-words longer than 3 characters that are present is at least 0.7
    times the number of all its sub-words. *)
Theorem multiword_contribution {lib : Library}
    (job_keywords : list string) (clean kw : string) (weight : float)
    (matches : Dict.t float) :
  Dict.get kw (keyword_importance job_keywords) = Some weight ->
  keyword_matches clean (keyword_importance job_keywords) = Ok matches ->
  Str.contains " " kw = true ->
  Str.contains (" " +:+ kw +:+ " ") (" " +:+ clean +:+ " ") = false ->
  long_parts (Str.split kw) <> [] ->
  (long_parts_present clean kw /\ positions_span_below 50 clean kw ->
   Dict.get kw matches = Some (weight * 0.9)%float)
  /\ (~ (long_parts_present clean kw /\ positions_span_below 50 clean kw) ->
      (2 < length (Str.split kw))%nat ->
      seventy_percent_of_parts clean kw ->
      Dict.get kw matches = Some (weight * 0.7)%float).
Proof.
  intros Hget Hrun Hsp Hex Hne.
  pose proof (keyword_importance_nodup job_keywords) as Hnd.
  split.
  - intros Hclose.
    exact (match_steps_entry clean kw weight _ _ _ _ Hnd Hget
             (contribution_close clean kw weight Hsp Hex Hne Hclose) Hrun).
  - intros Hfar Hlen Hmost.
    exact (match_steps_entry clean kw weight _ _ _ _ Hnd Hget
             (contribution_most clean kw weight Hsp Hex Hne Hfar Hlen Hmost) Hrun).
Qed.

(** A run of C6 through the 0.9 tier: both words are present, in the other
    order, 15 characters apart. *)
Lemma multiword_contribution_witness :
  let job_keywords := ["Python"; "Machine Learning"] in
  let clean := "learning about machine tools in python" in
  let kw := "machine learning" in
  let matches := [("python", 1.5%float); ("machine learning", (1.0 * 0.9)%float)] in
  Dict.get kw (keyword_importance job_keywords) = Some 1.0%float
  /\ @keyword_matches inert_library clean (keyword_importance job_keywords) = Ok matches
  /\ Str.contains " " kw = true
  /\ Str.contains (" " +:+ kw +:+ " ") (" " +:+ clean +:+ " ") = false
  /\ long_parts (Str.split kw) <> []
  /\ (long_parts_present clean kw /\ positions_span_below 50 clean kw)
  /\ Dict.get kw matches = Some (1.0 * 0.9)%float.
Proof.
  intros job_keywords clean kw matches.
  assert (Hget : Dict.get kw (keyword_importance job_keywords) = Some 1.0%float)
    by reflexivity.
  assert (Hrun : @keyword_matches inert_library clean (keyword_importance job_keywords)
                 = Ok matches) by reflexivity.
  assert (Hsp : Str.contains " " kw = true) by reflexivity.
  assert (Hex : Str.contains (" " +:+ kw +:+ " ") (" " +:+ clean +:+ " ") = false)
    by reflexivity.
  assert (Hne : long_parts (Str.split kw) <> []) by discriminate.
  assert (Hclose : long_parts_present clean kw /\ positions_span_below 50 clean kw).
  { split; repeat constructor. }
  repeat (split; [assumption|]).
  exact (proj1 (@multiword_contribution inert_library job_keywords clean kw 1.0%float
                  matches Hget Hrun Hsp Hex Hne) Hclose).
Defined.

(** The 0.7 tier: three of four sub-words are present. *)
Example multiword_most_parts (lib : Library) :
  let clean := "machine learning with data pipelines" in
  keyword_contribution clean "machine learning data science" 1.0%float
  = Ok (Some (1.0 * 0.7)%float).
Proof.
  intros clean. apply contribution_most; try reflexivity; try discriminate.
  - intros [Hall _].
    assert (Hin : In "science" (long_parts (Str.split "machine learning data science")))
      by (do 3 right; left; reflexivity).
    pose proof (proj1 (List.Forall_forall _ _) Hall _ Hin) as Hsci.
    vm_compute in Hsci. discriminate.
  - cbv; lia.
Qed.

(** The claim as stated fails: both sub-words of a two-word keyword are
    present in the cleaned resume, 60 characters apart, and the keyword
    contributes nothing instead of [weight * 0.7]. *)
Lemma multiword_two_words_counterexample :
  let job_keywords := ["machine learning"] in
  let clean := "machine operators and assembly line workers need continuous learning" in
  let kw := "machine learning" in
  Dict.get kw (keyword_importance job_keywords) = Some 1.0%float
  /\ Str.contains " " kw = true
  /\ Str.contains (" " +:+ kw +:+ " ") (" " +:+ clean +:+ " ") = false
  /\ long_parts_present clean kw
  /\ ~ positions_span_below 50 clean kw
  /\ seventy_percent_of_long_parts clean kw
  /\ exists matches,
       @keyword_matches inert_library clean (keyword_importance job_keywords) = Ok matches
       /\ Dict.get kw matches <> Some (1.0 * 0.7)%float.
Proof.
  intros job_keywords clean kw.
  repeat split; try reflexivity.
  - repeat constructor.
  - intros H. inversion H as [|? ? _ Hrest]; subst.
    inversion Hrest as [|? ? Hrow _]; subst.
    inversion Hrow as [|? ? Hlt _]; subst.
    vm_compute in Hlt. discriminate.
  - cbv. lia.
  - exists []. split; [reflexivity | discriminate].
Qed.

(** The same outcome with any library: no library call is reached. *)
Example two_words_far_apart (lib : Library) :
  keyword_matches
    "machine operators and assembly line workers need continuous learning"
    (keyword_importance ["machine learning"]) = Ok [].
Proof. reflexivity. Qed.

(** The share is taken among all the sub-words: two present long sub-words
    out of three sub-words do not reach it. *)
Example share_among_all_parts (lib : Library) :
  let clean := "machine operators and assembly line workers need continuous learning" in
  seventy_percent_of_long_parts clean "machine learning ops"
  /\ keyword_contribution clean "machine learning ops" 1.0%float = Ok None.
Proof. split; [cbv; lia | reflexivity]. Qed.

(** A keyword without any sub-word longer than 3 characters and without
    exact match stops the loop: [max] of no position raises. *)
Example short_parts_raise (lib : Library) :
  keyword_matches "python developer" (keyword_importance ["ci cd"])
  = Raise (ValueError "max() arg is an empty sequence").
Proof. reflexivity. Qed.

(** * Further properties of the module *)

(** ** The formatting analyzer *)

Lemma fold_left_const_step {A B : Type} (f : A -> A) (l : list B) (x : A) :
  fold_left (fun c _ => f c) l x = Nat.iter (length l) f x.
Proof.
  revert x. induction l as [|b l IH]; intros x; [reflexivity|].
  cbn [fold_left length]. rewrite IH. symmetry. apply Nat.iter_succ_r.
Qed.

Lemma density_score_zero (hi mid : nat) :
  (0 < hi)%nat -> (0 < mid)%nat -> density_score hi mid 0 = 0%float.
Proof.
  intros Hh Hm. unfold density_score.
  destruct hi; [lia|]. destruct mid; [lia|]. reflexivity.
Qed.

Lemma density_score_positive (hi mid n : nat) :
  (0 < n)%nat -> In (density_score hi mid n) [0.35; 0.25; 0.15]%float.
Proof.
  intros Hn. unfold density_score.
  destruct (hi <=? n)%nat; [now left|].
  destruct (mid <=? n)%nat; [now right; left|].
  apply Nat.ltb_lt in Hn. rewrite Hn. now right; right; left.
Qed.

Lemma density_score_values (hi mid n : nat) :
  In (density_score hi mid n) [0.35; 0.25; 0.15; 0]%float.
Proof.
  unfold density_score.
  destruct (hi <=? n)%nat; [now left|].
  destruct (mid <=? n)%nat; [now right; left|].
  destruct (0 <? n)%nat; [now right; right; left | now right; right; right; left].
Qed.

Section Formatting.

Context {lib : Library}.

Lemma found_at_most (patterns : list string) (resume_text : string) :
  (length (found patterns resume_text) <= length patterns)%nat.
Proof. apply length_filter. Qed.

Lemma check_formatting_total (resume_text : string) :
  check_formatting resume_text
  = formatting_total (density_score 10 5 (total_bullets resume_text))
                     (density_score 5 3 (headers_count resume_text))
                     (length (found date_patterns resume_text))
                     (length (found contact_patterns resume_text)).
Proof.
  unfold check_formatting, formatting_total, total_bullets, headers_count.
  rewrite fold_left_const_step. reflexivity.
Qed.

End Formatting.

(** All the values [formatting_total] takes on the inputs that occur. *)
Lemma formatting_total_table :
  forallb (fun a => forallb (fun b => forallb (fun d => forallb (fun c =>
    let v := formatting_total a b d c in
    PrimFloat.leb 0 v && PrimFloat.leb v 1
    && Bool.eqb (PrimFloat.eqb v 0)
         (PrimFloat.eqb a 0 && PrimFloat.eqb b 0 && (d =? 0)%nat && (c =? 0)%nat))
    (seq 0 5)) (seq 0 5)) [0.35; 0.25; 0.15; 0]%float) [0.35; 0.25; 0.15; 0]%float
  = true.
Proof. vm_compute. reflexivity. Qed.

Lemma formatting_total_cell (a b : float) (d c : nat) :
  In a [0.35; 0.25; 0.15; 0]%float -> In b [0.35; 0.25; 0.15; 0]%float ->
  (d <= 4)%nat -> (c <= 4)%nat ->
  let v := formatting_total a b d c in
  PrimFloat.leb 0 v = true /\ PrimFloat.leb v 1 = true
  /\ PrimFloat.eqb v 0
     = (PrimFloat.eqb a 0 && PrimFloat.eqb b 0 && (d =? 0)%nat && (c =? 0)%nat).
Proof.
  intros Ha Hb Hd Hc v.
  pose proof formatting_total_table as T.
  pose proof (proj1 (forallb_forall _ _) T a Ha) as T1.
  pose proof (proj1 (forallb_forall _ _) T1 b Hb) as T2.
  assert (Hdin : In d (seq 0 5)) by (apply in_seq; lia).
  assert (Hcin : In c (seq 0 5)) by (apply in_seq; lia).
  pose proof (proj1 (forallb_forall _ _) T2 d Hdin) as T3.
  pose proof (proj1 (forallb_forall _ _) T3 c Hcin) as T4.
  cbv beta zeta in T4. fold v in T4.
  apply andb_prop in T4. destruct T4 as [T4 He].
  apply andb_prop in T4. destruct T4 as [Hlo Hhi].
  apply Bool.eqb_prop in He. auto.
Qed.

(** X1: the formatting score lies in [0, 1], for every text and every
    behaviour of the regular-expression library. *)
Theorem check_formatting_range {lib : Library} (resume_text : string) :
  PrimFloat.leb 0 (check_formatting resume_text) = true
  /\ PrimFloat.leb (check_formatting resume_text) 1 = true.
Proof.
  rewrite check_formatting_total.
  destruct (formatting_total_cell
              (density_score 10 5 (total_bullets resume_text))
              (density_score 5 3 (headers_count resume_text))
              (length (found date_patterns resume_text))
              (length (found contact_patterns resume_text)))
    as (Hlo & Hhi & _).
  - apply density_score_values.
  - apply density_score_values.
  - apply (found_at_most date_patterns).
  - apply (found_at_most contact_patterns).
  - split; assumption.
Qed.

(** X2: the formatting score is exactly 0.0 if and only if the text has no
    bullet marker or numbered line, no header-shaped match, none of the
    four date formats and none of the four contact patterns. *)
Theorem check_formatting_zero {lib : Library} (resume_text : string) :
  check_formatting resume_text = 0%float
  <-> total_bullets resume_text = 0%nat
      /\ headers_count resume_text = 0%nat
      /\ found date_patterns resume_text = []
      /\ found contact_patterns resume_text = [].
Proof.
  rewrite check_formatting_total.
  destruct (formatting_total_cell
              (density_score 10 5 (total_bullets resume_text))
              (density_score 5 3 (headers_count resume_text))
              (length (found date_patterns resume_text))
              (length (found contact_patterns resume_text))
              (density_score_values _ _ _) (density_score_values _ _ _)
              (found_at_most date_patterns resume_text)
              (found_at_most contact_patterns resume_text))
    as (_ & _ & Hz).
  split.
  - intros H0. rewrite H0 in Hz. change (PrimFloat.eqb 0 0) with true in Hz.
    symmetry in Hz. apply andb_prop in Hz. destruct Hz as [Hz Hc].
    apply andb_prop in Hz. destruct Hz as [Hz Hd].
    apply andb_prop in Hz. destruct Hz as [Ha Hb].
    apply Nat.eqb_eq in Hc, Hd.
    assert (Hpos : forall hi mid n, PrimFloat.eqb (density_score hi mid n) 0 = true -> n = 0%nat).
    { intros hi mid n He. destruct n as [|n]; [reflexivity|].
      destruct (density_score_positive hi mid (S n)) as [E | [E | [E | []]]]; [lia| | |];
        rewrite <- E in He; vm_compute in He; discriminate. }
    repeat split.
    + apply (Hpos 10%nat 5%nat), Ha.
    + apply (Hpos 5%nat 3%nat), Hb.
    + destruct (found date_patterns resume_text); [reflexivity | discriminate].
    + destruct (found contact_patterns resume_text); [reflexivity | discriminate].
  - intros (Hb & Hh & Hd & Hc). rewrite Hb, Hh, Hd, Hc. reflexivity.
Qed.

(** ** Importance weights *)

Lemma base_weight_lower (kw kw' : string) :
  Str.lower kw = Str.lower kw' -> base_weight kw = base_weight kw'.
Proof. intros E. unfold base_weight, mentions. rewrite E. reflexivity. Qed.

(** X3: the importance weight of a keyword is at least 1.0 and at most
    1.0 + 0.5 + 0.3 + 0.4, and it is 1.0 exactly when the keyword mentions no
    term of the three vocabularies. *)
Theorem base_weight_range (kw : string) :
  PrimFloat.leb 1 (base_weight kw) = true
  /\ PrimFloat.leb (base_weight kw) (1.0 + 0.5 + 0.3 + 0.4) = true
  /\ (base_weight kw = 1.0%float
      <-> mentions technical_terms kw = false
          /\ mentions framework_terms kw = false
          /\ mentions cloud_terms kw = false).
Proof.
  unfold base_weight.
  destruct (mentions technical_terms kw), (mentions framework_terms kw),
    (mentions cloud_terms kw);
    (split; [vm_compute; reflexivity|]); (split; [vm_compute; reflexivity|]);
    split; try (intros H; vm_compute in H; discriminate);
    try (intros (? & ? & ?); discriminate); auto.
Qed.

Lemma dict_get_in {V : Type} (k : string) (v : V) (d : Dict.t V) :
  Dict.get k d = Some v -> In (k, v) d.
Proof.
  induction d as [|[k' v'] d IH]; simpl; [discriminate|].
  destruct (String.eqb k k') eqn:E.
  - apply String.eqb_eq in E. intros [= ->]. subst. now left.
  - intros H. right. apply IH, H.
Qed.

Lemma dict_in_get {V : Type} (k : string) (v : V) (d : Dict.t V) :
  List.NoDup (Dict.keys d) -> In (k, v) d -> Dict.get k d = Some v.
Proof.
  unfold Dict.keys. induction d as [|[k' v'] d IH]; simpl; intros Hnd Hin; [contradiction|].
  inversion Hnd as [|? ? Hnin Hnd']; subst.
  destruct Hin as [[= -> ->] | Hin].
  - rewrite String.eqb_refl. reflexivity.
  - destruct (String.eqb k k') eqn:E; [|apply IH; assumption].
    apply String.eqb_eq in E. subst k'. exfalso. apply Hnin.
    apply (in_map fst) in Hin. exact Hin.
Qed.

Lemma dict_get_keys {V : Type} (k : string) (d : Dict.t V) :
  In k (Dict.keys d) <-> exists v, Dict.get k d = Some v.
Proof.
  unfold Dict.keys. induction d as [|[k' v'] d IH]; simpl.
  - split; [contradiction | intros [v H]; discriminate].
  - destruct (String.eqb k k') eqn:E.
    + apply String.eqb_eq in E. subst. split; eauto.
    + rewrite <- IH. split; [intros [-> | H]; [|exact H] | auto].
      rewrite String.eqb_refl in E. discriminate.
Qed.

Lemma dict_set_fresh {V : Type} (k : string) (v : V) (d : Dict.t V) :
  ~ In k (Dict.keys d) -> Dict.set k v d = d ++ [(k, v)].
Proof.
  unfold Dict.keys. induction d as [|[k' v'] d IH]; simpl; intros Hnin; [reflexivity|].
  destruct (String.eqb k k') eqn:E.
  - apply String.eqb_eq in E. subst. exfalso. apply Hnin. now left.
  - rewrite IH; [reflexivity|]. intros H. apply Hnin. now right.
Qed.

Lemma keyword_importance_fold_kept (l : list string) (d : Dict.t float)
    (k : string) (w : float) :
  Dict.get k d = Some w ->
  (forall b, In b l -> Str.lower b = k -> base_weight b = w) ->
  Dict.get k (fold_left (fun d kw => Dict.set (Str.lower kw) (base_weight kw) d) l d)
  = Some w.
Proof.
  revert d. induction l as [|a l IH]; intros d Hget Hsame; [exact Hget|].
  cbn [fold_left]. apply IH.
  - destruct (String.eqb k (Str.lower a)) eqn:E.
    + apply String.eqb_eq in E. subst k.
      rewrite dict_get_set_eq. f_equal. apply Hsame; [now left | reflexivity].
    + rewrite dict_get_set_ne; [exact Hget|].
      intros ->. rewrite String.eqb_refl in E. discriminate.
  - intros b Hb. apply Hsame. now right.
Qed.

Lemma keyword_importance_fold_keys (l : list string) (d : Dict.t float) (k : string) :
  In k (Dict.keys (fold_left (fun d kw => Dict.set (Str.lower kw) (base_weight kw) d) l d))
  <-> In k (Dict.keys d) \/ In k (map Str.lower l).
Proof.
  revert d. induction l as [|a l IH]; intros d; cbn [fold_left map].
  - simpl. tauto.
  - rewrite IH, dict_keys_set. simpl. intuition.
Qed.

(** X4: [keyword_importance] has one entry per lower-cased keyword: its
    keys are distinct, they are exactly the lower-cased keywords of the
    list, and every keyword of the list finds its own weight under its
    lower-cased form. *)
Theorem keyword_importance_entries (job_keywords : list string) :
  List.NoDup (Dict.keys (keyword_importance job_keywords))
  /\ (forall k, In k (Dict.keys (keyword_importance job_keywords))
                <-> In k (map Str.lower job_keywords))
  /\ Forall (fun kw => Dict.get (Str.lower kw) (keyword_importance job_keywords)
                       = Some (base_weight kw)) job_keywords.
Proof.
  split; [apply keyword_importance_nodup|]. split.
  - intros k. unfold keyword_importance. rewrite keyword_importance_fold_keys.
    simpl. tauto.
  - unfold keyword_importance. generalize (@nil (string * float)).
    induction job_keywords as [|a l IH]; intros d; constructor.
    + cbn [fold_left]. apply keyword_importance_fold_kept.
      * apply dict_get_set_eq.
      * intros b _ E. apply base_weight_lower, E.
    + cbn [fold_left]. apply List.Forall_forall. intros kw Hkw.
      exact (proj1 (List.Forall_forall _ _) (IH _) kw Hkw).
Qed.

(** ** The matching loop *)

Section MatchingLoop.

Context {lib : Library}.

Lemma keyword_contribution_exact (clean kw : string) (weight : float) :
  exact_match clean kw = true -> keyword_contribution clean kw weight = Ok (Some weight).
Proof.
  unfold exact_match, keyword_contribution. intros E. rewrite E. reflexivity.
Qed.

(** An iteration raises exactly on a keyword without position, with the
    error of [max] on an empty list; otherwise it stores nothing or one of
    the four contributions. *)
Lemma keyword_contribution_outcome (clean kw : string) (weight : float) :
  if no_position clean kw
  then keyword_contribution clean kw weight
       = Raise (ValueError "max() arg is an empty sequence")
  else keyword_contribution clean kw weight = Ok None
       \/ exists v, keyword_contribution clean kw weight = Ok (Some v)
                    /\ In v (contributions weight).
Proof.
  unfold no_position, exact_match, keyword_contribution, contributions.
  destruct (Str.contains (" " +:+ kw +:+ " ") (" " +:+ clean +:+ " ")); cbn [negb andb].
  { right. eexists. split; [reflexivity | now left]. }
  destruct (Str.contains " " kw); cbn [andb].
  - destruct (decide (long_parts (Str.split kw) = [])) as [He | Hne].
    + rewrite bool_decide_eq_true_2 by exact He.
      unfold parts_close. rewrite He. reflexivity.
    + rewrite bool_decide_eq_false_2 by exact Hne.
      destruct (parts_close_spec clean kw Hne) as (b & Hb & _). rewrite Hb. cbn [bind].
      destruct b; [right; eexists; split; [reflexivity | now right; left]|].
      destruct (most_parts clean (Str.split kw));
        [right; eexists; split; [reflexivity | now right; right; left]|].
      cbn [bind].
      destruct ((length (Str.split kw) =? 1)%nat && (3 <? String.length kw)%nat
                && fuzzy_hit clean kw);
        [right; eexists; split; [reflexivity | now right; right; right; left] | now left].
  - cbn [bind].
    destruct ((length (Str.split kw) =? 1)%nat && (3 <? String.length kw)%nat
              && fuzzy_hit clean kw);
      [right; eexists; split; [reflexivity | now right; right; right; left] | now left].
Qed.

Lemma match_step_keys (clean : string) (matches matches' : Dict.t float)
    (kw : string) (weight : float) (k : string) :
  match_step clean matches (kw, weight) = Ok matches' ->
  In k (Dict.keys matches') -> k = kw \/ In k (Dict.keys matches).
Proof.
  cbn [match_step].
  destruct (keyword_contribution clean kw weight) as [[v|]|e]; cbn [bind];
    intros [= <-]; [|auto]; try discriminate.
  intros H. apply dict_keys_set in H. exact H.
Qed.

Lemma match_step_nodup (clean : string) (matches matches' : Dict.t float)
    (item : string * float) :
  match_step clean matches item = Ok matches' ->
  List.NoDup (Dict.keys matches) -> List.NoDup (Dict.keys matches').
Proof.
  destruct item as [kw weight]. cbn [match_step].
  destruct (keyword_contribution clean kw weight) as [[v|]|e]; cbn [bind];
    intros [= <-]; [|auto]; try discriminate.
  apply dict_set_nodup.
Qed.

(** What the loop maintains: distinct keys, every key a keyword already
    visited, every value one of the contributions of that keyword. *)
Lemma match_steps_invariant (clean : string) (items : Dict.t float)
    (matches0 matches : Dict.t float) :
  foldM (match_step clean) items matches0 = Ok matches ->
  (List.NoDup (Dict.keys matches0) -> List.NoDup (Dict.keys matches))
  /\ (forall k, In k (Dict.keys matches) ->
                In k (Dict.keys matches0) \/ In k (Dict.keys items))
  /\ (forall k v, Dict.get k matches = Some v ->
                  Dict.get k matches0 = Some v
                  \/ exists w, In (k, w) items /\ In v (contributions w)).
Proof.
  revert matches0. induction items as [|[kw weight] items IH]; intros matches0 Hrun.
  - cbn [foldM] in Hrun. injection Hrun as <-. repeat split; auto.
  - cbn [foldM] in Hrun.
    destruct (match_step clean matches0 (kw, weight)) as [matches1|e] eqn:Hstep;
      cbn [bind] in Hrun; [|discriminate].
    destruct (IH _ Hrun) as (Hnd & Hkeys & Hvals). split; [|split].
    + intros H0. apply Hnd. exact (match_step_nodup _ _ _ _ Hstep H0).
    + intros k Hk. destruct (Hkeys k Hk) as [H1 | H1].
      * destruct (match_step_keys _ _ _ _ _ _ Hstep H1) as [-> | H0];
          [right; now left | now left].
      * right. now right.
    + intros k v Hget. destruct (Hvals k v Hget) as [H1 | (w & Hin & Hv)].
      * cbn [match_step] in Hstep.
        pose proof (keyword_contribution_outcome clean kw weight) as Hout.
        destruct (keyword_contribution clean kw weight) as [[u|]|e]; cbn [bind] in Hstep;
          try discriminate; injection Hstep as <-; [|now left].
        destruct (String.eqb k kw) eqn:E.
        -- apply String.eqb_eq in E. subst k. rewrite dict_get_set_eq in H1.
           injection H1 as <-. right. exists weight. split; [now left|].
           destruct (no_position clean kw); [discriminate|].
           destruct Hout as [Hn | (v' & [= <-] & Hv')]; [discriminate | exact Hv'].
        -- rewrite dict_get_set_ne in H1; [now left|].
           intros ->. rewrite String.eqb_refl in E. discriminate.
      * right. exists w. split; [now right | exact Hv].
Qed.

Lemma match_steps_outcome (clean : string) (items : Dict.t float) (matches0 : Dict.t float) :
  match foldM (match_step clean) items matches0 with
  | Ok _ => Forall (fun item => no_position clean (fst item) = false) items
  | Raise e => e = ValueError "max() arg is an empty sequence"
               /\ Exists (fun item => no_position clean (fst item) = true) items
  end.
Proof.
  revert matches0. induction items as [|[kw weight] items IH]; intros matches0.
  - constructor.
  - cbn [foldM match_step].
    pose proof (keyword_contribution_outcome clean kw weight) as Hout.
    destruct (no_position clean kw) eqn:Hpos.
    + rewrite Hout. cbn [bind]. split; [reflexivity|]. now left.
    + assert (Hok : exists r, keyword_contribution clean kw weight = Ok r)
        by (destruct Hout as [H | (v & H & _)]; eauto).
      destruct Hok as [r Hr]. rewrite Hr. cbn [bind].
      destruct r as [v|]; cbn [bind].
      * specialize (IH (Dict.set kw v matches0)).
        destruct (foldM (match_step clean) items (Dict.set kw v matches0)).
        -- constructor; assumption.
        -- destruct IH as [-> IH]. split; [reflexivity | now right].
      * specialize (IH matches0).
        destruct (foldM (match_step clean) items matches0).
        -- constructor; assumption.
        -- destruct IH as [-> IH]. split; [reflexivity | now right].
Qed.

Lemma match_steps_all_exact (clean : string) (items matches0 : Dict.t float) :
  List.NoDup (Dict.keys (matches0 ++ items)) ->
  Forall (fun item => exact_match clean (fst item) = true) items ->
  foldM (match_step clean) items matches0 = Ok (matches0 ++ items).
Proof.
  revert matches0. induction items as [|[kw weight] items IH]; intros matches0 Hnd Hall.
  - rewrite app_nil_r. reflexivity.
  - inversion Hall as [|? ? Hkw Hrest]; subst. cbn [fst] in Hkw.
    cbn [foldM match_step]. rewrite (keyword_contribution_exact _ _ _ Hkw). cbn [bind].
    assert (Hfresh : ~ In kw (Dict.keys matches0)).
    { unfold Dict.keys in *. rewrite map_app in Hnd. cbn [map fst] in Hnd.
      apply List.NoDup_remove_2 in Hnd. intros H. apply Hnd, in_or_app. now left. }
    rewrite (dict_set_fresh _ _ _ Hfresh).
    replace (matches0 ++ (kw, weight) :: items) with ((matches0 ++ [(kw, weight)]) ++ items)
      by (rewrite <- app_assoc; reflexivity).
    apply IH; [|exact Hrest].
    rewrite <- app_assoc. exact Hnd.
Qed.

End MatchingLoop.

(** X5: when every keyword of the list has an exact whole-phrase match in
    the cleaned resume, the loop matches each keyword at its full weight:
    [matches] is [keyword_importance] itself. *)
Theorem all_exact_full_weight {lib : Library} (clean : string) (job_keywords : list string) :
  Forall (fun item => exact_match clean (fst item) = true) (keyword_importance job_keywords) ->
  keyword_matches clean (keyword_importance job_keywords) = Ok (keyword_importance job_keywords).
Proof.
  intros Hall. unfold keyword_matches.
  apply (match_steps_all_exact clean (keyword_importance job_keywords) [] ); [|exact Hall].
  apply keyword_importance_nodup.
Qed.

Lemma all_exact_full_weight_witness :
  Forall (fun item => exact_match "senior python and docker engineer" (fst item) = true)
         (keyword_importance ["Python"; "Docker"])
  /\ @keyword_matches inert_library "senior python and docker engineer"
       (keyword_importance ["Python"; "Docker"])
     = Ok [("python", 1.5%float); ("docker", (1.0 + 0.5 + 0.4)%float)].
Proof.
  assert (H : Forall (fun item => exact_match "senior python and docker engineer" (fst item)
                                   = true)
                     (keyword_importance ["Python"; "Docker"]))
    by (repeat constructor).
  split; [exact H|].
  exact (@all_exact_full_weight inert_library "senior python and docker engineer"
           ["Python"; "Docker"] H).
Defined.

(** X6: [check_keywords] raises exactly when some keyword of the list
    holds a blank, has no exact match in the cleaned resume and has no
    sub-word longer than 3 characters; the error is then the [ValueError]
    of [max] on an empty list.  In every other case it returns a score. *)
Theorem check_keywords_outcome {lib : Library} (resume_text : string)
    (job_keywords : list string) :
  match check_keywords resume_text job_keywords with
  | Ok _ => Forall (fun item => no_position (clean_resume resume_text) (fst item) = false)
                   (keyword_importance job_keywords)
  | Raise e => e = ValueError "max() arg is an empty sequence"
               /\ Exists (fun item => no_position (clean_resume resume_text) (fst item) = true)
                         (keyword_importance job_keywords)
  end.
Proof.
  destruct job_keywords as [|kw rest]; [constructor|].
  unfold check_keywords, keyword_matches.
  pose proof (match_steps_outcome (clean_resume resume_text)
                (keyword_importance (kw :: rest)) []) as Hout.
  destruct (foldM (match_step (clean_resume resume_text))
              (keyword_importance (kw :: rest)) []) as [matches|e]; cbn [bind].
  - destruct (PrimFloat.eqb _ _); exact Hout.
  - exact Hout.
Qed.

(** X7: when the loop returns, [matches] has distinct keys, at most as
    many entries as [keyword_importance], and every entry belongs to a
    keyword of the list with a value that is its weight times 1, 0.9, 0.7 or
    0.6. *)
Theorem keyword_matches_entries {lib : Library} (clean : string) (job_keywords : list string) :
  match keyword_matches clean (keyword_importance job_keywords) with
  | Ok matches =>
      List.NoDup (Dict.keys matches)
      /\ (length matches <= length (keyword_importance job_keywords))%nat
      /\ Forall (fun entry =>
                   exists w, Dict.get (fst entry) (keyword_importance job_keywords) = Some w
                             /\ In (snd entry) (contributions w)) matches
  | Raise _ => True
  end.
Proof.
  destruct (keyword_matches clean (keyword_importance job_keywords)) as [matches|e] eqn:Hrun;
    [|exact I].
  destruct (match_steps_invariant _ _ _ _ Hrun) as (Hnd & Hkeys & Hvals).
  pose proof (keyword_importance_nodup job_keywords) as Hni.
  assert (Hm : List.NoDup (Dict.keys matches)) by (apply Hnd; constructor).
  split; [exact Hm|]. split.
  - unfold Dict.keys in *. rewrite <- (length_map fst matches).
    rewrite <- (length_map fst (keyword_importance job_keywords)).
    apply List.NoDup_incl_length; [exact Hm|].
    intros k Hk. destruct (Hkeys k Hk) as [[] | H]. exact H.
  - apply List.Forall_forall. intros [k v] Hin. cbn [fst snd].
    pose proof (dict_in_get k v matches Hm Hin) as Hget.
    destruct (Hvals k v Hget) as [H0 | (w & Hw & Hv)]; [discriminate|].
    exists w. split; [|exact Hv]. apply dict_in_get; assumption.
Qed.

(** X8: when the loop returns, a keyword of the list without blank and
    without exact match is matched only by the fuzzy tier: it ends with
    [weight * 0.6] if it is a single word longer than 3 characters and some
    word of the cleaned resume longer than 3 characters is more than 0.8
    similar to it, and it has no entry otherwise; in particular a keyword of
    at most 3 characters is matched exactly or not at all. *)
Theorem single_word_contribution {lib : Library}
    (job_keywords : list string) (clean kw : string) (weight : float)
    (matches : Dict.t float) :
  Dict.get kw (keyword_importance job_keywords) = Some weight ->
  keyword_matches clean (keyword_importance job_keywords) = Ok matches ->
  exact_match clean kw = false ->
  Str.contains " " kw = false ->
  Dict.get kw matches
  = (if (length (Str.split kw) =? 1)%nat && (3 <? String.length kw)%nat
        && fuzzy_hit clean kw
     then Some (weight * 0.6)%float else None)
  /\ ((String.length kw <= 3)%nat -> Dict.get kw matches = None).
Proof.
  intros Hget Hrun Hex Hsp.
  assert (Hc : keyword_contribution clean kw weight
               = Ok (if (length (Str.split kw) =? 1)%nat && (3 <? String.length kw)%nat
                        && fuzzy_hit clean kw
                     then Some (weight * 0.6)%float else None)).
  { unfold keyword_contribution. unfold exact_match in Hex. rewrite Hex, Hsp. cbn [bind].
    destruct ((length (Str.split kw) =? 1)%nat && (3 <? String.length kw)%nat
              && fuzzy_hit clean kw); reflexivity. }
  pose proof (match_steps_entry clean kw weight _ _ _ _
                (keyword_importance_nodup job_keywords) Hget Hc Hrun) as Hentry.
  assert (Hfirst : Dict.get kw matches
                   = (if (length (Str.split kw) =? 1)%nat && (3 <? String.length kw)%nat
                         && fuzzy_hit clean kw
                      then Some (weight * 0.6)%float else None)).
  { rewrite Hentry.
    destruct ((length (Str.split kw) =? 1)%nat && (3 <? String.length kw)%nat
              && fuzzy_hit clean kw); reflexivity. }
  split; [exact Hfirst|].
  intros Hlen. rewrite Hfirst.
  assert (Hs : (3 <? String.length kw)%nat = false) by (apply Nat.ltb_ge; exact Hlen).
  rewrite Hs, andb_false_r. reflexivity.
Qed.

Lemma single_word_contribution_witness :
  let job_keywords := ["SQL"; "Kubernetes"] in
  let clean := "mysql and kubernetes clusters" in
  let matches := [("kubernetes", (1.0 + 0.5 + 0.4)%float)] in
  Dict.get "sql" (keyword_importance job_keywords) = Some 1.5%float
  /\ @keyword_matches inert_library clean (keyword_importance job_keywords) = Ok matches
  /\ exact_match clean "sql" = false
  /\ Str.contains " " "sql" = false
  /\ Dict.get "sql" matches = None.
Proof.
  intros job_keywords clean matches.
  assert (Hget : Dict.get "sql" (keyword_importance job_keywords) = Some 1.5%float)
    by reflexivity.
  assert (Hrun : @keyword_matches inert_library clean (keyword_importance job_keywords)
                 = Ok matches) by reflexivity.
  assert (Hex : exact_match clean "sql" = false) by reflexivity.
  assert (Hsp : Str.contains " " "sql" = false) by reflexivity.
  repeat (split; [assumption|]).
  apply (proj2 (@single_word_contribution inert_library job_keywords clean "sql" 1.5%float
                  matches Hget Hrun Hex Hsp)).
  simpl. lia.
Defined.


(** ** The analyses of the semantic scorer *)

Lemma filter_is_true {A : Type} (f : A -> bool) (l : list A) :
  filter (fun x => Is_true (f x)) l = List.filter f l.
Proof.
  induction l as [|a l IH]; [reflexivity|].
  rewrite filter_cons, IH. cbn [List.filter].
  destruct (f a); reflexivity.
Qed.

(** X10: the format analysis scores 0, 25, 50, 75 or 100; it scores 100,
    and reports no issue, exactly when the four section names all occur in
    the lower-cased resume, and otherwise it reports one issue. *)
Theorem analyze_format_score (resume_text : string) :
  let a := ATSScorer._analyze_format resume_text in
  let complete :=
    Forall (fun section => Str.contains section (Str.lower resume_text) = true)
           format_sections in
  In (score a) [0; 25; 50; 75; 100]%float
  /\ (score a = 100%float <-> complete)
  /\ (issues a = [] <-> complete)
  /\ (length (issues a) <= 1)%nat.
Proof.
  unfold ATSScorer._analyze_format, format_sections.
  rewrite filter_is_true. cbn [List.filter].
  destruct (Str.contains "education" (Str.lower resume_text)) eqn:E1;
  destruct (Str.contains "experience" (Str.lower resume_text)) eqn:E2;
  destruct (Str.contains "skills" (Str.lower resume_text)) eqn:E3;
  destruct (Str.contains "projects" (Str.lower resume_text)) eqn:E4;
  cbn [score issues length Nat.ltb Nat.leb];
  (split; [vm_compute; tauto|]);
  (split; [|split; [|simpl; lia]]);
  split; intros H;
    first [ solve [repeat (constructor; try assumption)]
          | solve [vm_compute; reflexivity]
          | solve [vm_compute in H; discriminate]
          | solve [repeat match goal with
                          | H : Forall _ (_ :: _) |- _ => inversion H; clear H; subst
                          end; congruence] ].
Qed.

Lemma size_split_by (X Y : gset string) :
  (size (X ∩ Y) + size (Y ∖ X))%nat = size Y.
Proof.
  rewrite <- size_union; [|intros w; rewrite elem_of_intersection, elem_of_difference; tauto].
  f_equal. apply set_eq. intros w. rewrite elem_of_union, elem_of_intersection,
    elem_of_difference. destruct (decide (w ∈ X)); tauto.
Qed.

(** X11: the content analysis splits the words of the job description:
    [keyword_match] counts those found in the resume and [missing_keywords]
    lists, without repetition, exactly those that are not, so the two add up
    to the number of distinct job words; it makes no suggestion exactly when
    no job word is missing.  The basic result reports the same count and the
    same missing words. *)
Theorem analyze_content_partition (resume_text job_description : string) :
  let c := ATSScorer._analyze_content resume_text job_description in
  (keyword_match c + length (missing_keywords c))%nat = size (word_set job_description)
  /\ (forall w, w ∈ missing_keywords c
                <-> w ∈ word_set job_description /\ w ∉ word_set resume_text)
  /\ NoDup (missing_keywords c)
  /\ (content_suggestions c = [] <-> word_set job_description ⊆ word_set resume_text)
  /\ ATSScorer._basic_ats_score resume_text job_description !! "content_analysis"
     = Some (VContent {| keyword_match := keyword_match c;
                         missing_keywords := missing_keywords c;
                         content_suggestions :=
                           ["Add missing keywords to improve ATS score"] |}).
Proof.
  unfold ATSScorer._analyze_content. cbn [keyword_match missing_keywords content_suggestions].
  split; [|split; [|split; [|split]]].
  - change (length (elements ?S)) with (size S). apply size_split_by.
  - intros w. rewrite elem_of_elements, elem_of_difference. reflexivity.
  - apply NoDup_elements.
  - destruct (decide (word_set job_description ∖ word_set resume_text = ∅)) as [He | Hne].
    + rewrite bool_decide_eq_true_2 by exact He. split; [|reflexivity].
      intros _ w Hw. destruct (decide (w ∈ word_set resume_text)) as [|Hn]; [assumption|].
      exfalso. assert (Hin : w ∈ word_set job_description ∖ word_set resume_text)
        by (apply elem_of_difference; auto).
      rewrite He in Hin. exact (not_elem_of_empty w Hin).
    + rewrite bool_decide_eq_false_2 by exact Hne. split; [discriminate|].
      intros Hsub. exfalso. apply Hne. apply set_eq. intros w.
      rewrite elem_of_difference. split; [|intros Hw; exfalso; exact (not_elem_of_empty w Hw)].
      intros [Hj Hr]. exfalso. apply Hr, Hsub, Hj.
  - unfold ATSScorer._basic_ats_score. rewrite lookup_insert_eq. reflexivity.
Qed.

(** ** The combined result *)

Section CombinedResult.

Context {prov : Provider}.

Lemma basic_ats_score_dom (resume_text job_description : string) :
  dom (ATSScorer._basic_ats_score resume_text job_description) = method_keys.
Proof.
  unfold ATSScorer._basic_ats_score, method_keys.
  rewrite !dom_insert_L, dom_empty_L. set_solver.
Qed.

Lemma method_dom (self : ATSScorer.t) (resume_text job_description : string)
    (d : gmap string value) :
  ATSScorer.calculate_ats_score self resume_text job_description = Ok d ->
  dom d = method_keys.
Proof.
  unfold ATSScorer.calculate_ats_score.
  destruct (ATSScorer.initialized self); cbn [negb].
  - destruct (ATSScorer.similarity_result self resume_text job_description) as [r|e] eqn:Hs;
      cbn [try_except]; intros [= <-]; [|apply basic_ats_score_dom].
    unfold ATSScorer.similarity_result in Hs.
    destruct (ATSScorer.model self) as [m|]; cbn [bind] in Hs; [|discriminate].
    destruct (encode m [resume_text; job_description]) as [embeddings|]; cbn [bind] in Hs;
      [|discriminate].
    destruct embeddings as [|a [|b [|c rest]]]; cbn [bind] in Hs; try discriminate.
    destruct (cosine_similarity _ _); cbn [bind] in Hs; [|discriminate].
    injection Hs as <-. unfold method_keys.
    rewrite !dom_insert_L, dom_empty_L. set_solver.
  - intros [= <-]. apply basic_ats_score_dom.
Qed.

End CombinedResult.

(** X12: on every input, in every process and with every provider and
    helper namespace, [calculate_ats_score] returns a dict with exactly the
    six keys [ats_score], [format_analysis], [content_analysis],
    [strengths], [weaknesses] and [improvements]; the first three entries
    are those of the scorer's method and the handler of the outer [try]
    never produces the result. *)
Theorem calculate_ats_score_keys {prov : Provider} (ns : Namespace)
    (resume_text job_description : string) (p : Process) :
  exists d0 d,
    ATSScorer.calculate_ats_score (fst (get_ats_scorer p)) resume_text job_description = Ok d0
    /\ fst (calculate_ats_score ns resume_text job_description p) = Ok d
    /\ dom d = result_keys
    /\ d !! "ats_score" = d0 !! "ats_score"
    /\ d !! "format_analysis" = d0 !! "format_analysis"
    /\ d !! "content_analysis" = d0 !! "content_analysis".
Proof.
  destruct (method_returns (fst (get_ats_scorer p)) resume_text job_description) as [d0 Hd0].
  rewrite calculate_ats_score_eq. cbn [fst]. rewrite Hd0. cbn [bind].
  rewrite with_insights_ok. cbn [try_except].
  eexists d0, _. split; [reflexivity|]. split; [reflexivity|].
  split; [|rewrite !lookup_insert_ne by discriminate; auto].
  rewrite !dom_insert_L, (method_dom _ _ _ _ Hd0). unfold result_keys. set_solver.
Qed.

(** X13: in the module as it stands the three insight entries of the
    combined result are empty lists, on every input, in every process and
    with every provider. *)
Theorem calculate_ats_score_no_insights {prov : Provider}
    (resume_text job_description : string) (p : Process) :
  exists d,
    fst (calculate_ats_score module_namespace resume_text job_description p) = Ok d
    /\ d !! "strengths" = Some (VStrings [])
    /\ d !! "weaknesses" = Some (VStrings [])
    /\ d !! "improvements" = Some (VStrings []).
Proof.
  destruct (method_returns (fst (get_ats_scorer p)) resume_text job_description) as [d0 Hd0].
  rewrite calculate_ats_score_eq. cbn [fst]. rewrite Hd0. cbn [bind].
  rewrite with_insights_ok. cbn [try_except].
  eexists. split; [reflexivity|].
  destruct (module_bodies_fail resume_text job_description) as (Hs & Hw & Hi).
  rewrite Hs, Hw, Hi. cbn [recovered].
  repeat split.
  - rewrite !lookup_insert_ne by discriminate. apply lookup_insert_eq.
  - rewrite lookup_insert_ne by discriminate. apply lookup_insert_eq.
  - apply lookup_insert_eq.
Qed.

(** ** The process-wide scorer *)

Section Singleton.

Context {lib : Library} {prov : Provider}.
Variable ns : Namespace.

Lemma run_from_set (calls : list call) (p : Process) (scorer : ATSScorer.t) :
  _ats_scorer p = Some scorer ->
  _ats_scorer (snd (run ns calls p)) = Some scorer
  /\ loads (snd (run ns calls p)) = loads p.
Proof.
  intros E. rewrite (run_scorer_kept ns calls p scorer E). auto.
Qed.

End Singleton.

(** X14: from a fresh process and after any sequence of calls, the global
    scorer is unset with no provider load attempted when no call was
    [calculate_ats_score], and otherwise it holds the scorer built by the
    first load, with exactly one load attempted: the scorer is created once
    and never replaced. *)
Theorem scorer_created_once {lib : Library} {prov : Provider}
    (ns : Namespace) (calls : list call) :
  snd (run ns calls fresh)
  = if existsb is_calculate calls
    then {| _ats_scorer := Some (ATSScorer.init 0); loads := 1 |}
    else fresh.
Proof.
  induction calls as [|c rest IH]; [reflexivity|].
  destruct c as [t k | r j].
  - cbn [run exec existsb is_calculate orb].
    destruct (run ns rest fresh) as [os p]. exact IH.
  - cbn [run existsb is_calculate orb]. rewrite exec_calculate.
    pose proof (run_scorer_kept ns rest (snd (get_ats_scorer fresh))
                  (ATSScorer.init 0) eq_refl) as Hkept.
    destruct (run ns rest (snd (get_ats_scorer fresh))) as [os p].
    cbn [snd] in *. exact Hkept.
Qed.



(** ** The full formatting score *)

Lemma formatting_total_full_table :
  forallb (fun a => forallb (fun b => forallb (fun d => forallb (fun c =>
    Bool.eqb (PrimFloat.eqb (formatting_total a b d c) 1)
             (PrimFloat.eqb a 0.35 && PrimFloat.eqb b 0.35 && (3 <=? d)%nat && (3 <=? c)%nat))
    (seq 0 5)) (seq 0 5)) [0.35; 0.25; 0.15; 0]%float) [0.35; 0.25; 0.15; 0]%float
  = true.
Proof. vm_compute. reflexivity. Qed.

Lemma density_score_top (hi mid n : nat) :
  PrimFloat.eqb (density_score hi mid n) 0.35 = (hi <=? n)%nat.
Proof.
  unfold density_score. destruct (hi <=? n)%nat; [reflexivity|].
  destruct (mid <=? n)%nat; [reflexivity|]. destruct (0 <? n)%nat; reflexivity.
Qed.

(** X16: the formatting score is exactly 1.0 if and only if the text has
    at least 10 bullet markers or numbered lines, at least 5 header-shaped
    matches, at least 3 of the 4 date formats and at least 3 of the 4
    contact patterns. *)
Theorem check_formatting_full {lib : Library} (resume_text : string) :
  check_formatting resume_text = 1%float
  <-> (10 <= total_bullets resume_text)%nat
      /\ (5 <= headers_count resume_text)%nat
      /\ (3 <= length (found date_patterns resume_text))%nat
      /\ (3 <= length (found contact_patterns resume_text))%nat.
Proof.
  rewrite check_formatting_total.
  set (d := length (found date_patterns resume_text)).
  set (c := length (found contact_patterns resume_text)).
  pose proof (found_at_most date_patterns resume_text) as Hd4.
  pose proof (found_at_most contact_patterns resume_text) as Hc4.
  fold d in Hd4. fold c in Hc4. cbn [length date_patterns contact_patterns] in Hd4, Hc4.
  assert (Hcell : PrimFloat.eqb
                    (formatting_total (density_score 10 5 (total_bullets resume_text))
                       (density_score 5 3 (headers_count resume_text)) d c) 1
                  = ((10 <=? total_bullets resume_text)%nat
                     && (5 <=? headers_count resume_text)%nat
                     && (3 <=? d)%nat && (3 <=? c)%nat)).
  { rewrite <- (density_score_top 10 5 (total_bullets resume_text)).
    rewrite <- (density_score_top 5 3 (headers_count resume_text)).
    pose proof formatting_total_full_table as T.
    pose proof (proj1 (forallb_forall _ _) T _
                  (density_score_values 10 5 (total_bullets resume_text))) as T1.
    pose proof (proj1 (forallb_forall _ _) T1 _
                  (density_score_values 5 3 (headers_count resume_text))) as T2.
    assert (Hd : In d (seq 0 5)) by (apply in_seq; lia).
    assert (Hc : In c (seq 0 5)) by (apply in_seq; lia).
    pose proof (proj1 (forallb_forall _ _) T2 d Hd) as T3.
    pose proof (proj1 (forallb_forall _ _) T3 c Hc) as T4.
    apply Bool.eqb_prop, T4. }
  split.
  - intros H1. rewrite H1 in Hcell. change (PrimFloat.eqb 1 1) with true in Hcell.
    symmetry in Hcell. rewrite !andb_true_iff, !Nat.leb_le in Hcell. tauto.
  - intros (Hb & Hh & Hd & Hc).
    unfold density_score.
    apply Nat.leb_le in Hb, Hh. rewrite Hb, Hh.
    assert (Hdv : d = 3%nat \/ d = 4%nat) by lia.
    assert (Hcv : c = 3%nat \/ c = 4%nat) by lia.
    destruct Hdv as [-> | ->], Hcv as [-> | ->]; vm_compute; reflexivity.
Qed.

(** ** The insight generator as a whole *)

(** X17: whatever the helpers are, [suggest_improvements] returns exactly
    one suggestion for each weakness [identify_weaknesses] returns: the two
    lists have the same length on every pair of texts. *)
Theorem improvements_match_weaknesses (ns : Namespace) (resume_text job_description : string) :
  exists weaknesses improvements,
    identify_weaknesses ns resume_text job_description = Ok weaknesses
    /\ suggest_improvements ns resume_text job_description = Ok improvements
    /\ length improvements = length weaknesses.
Proof.
  rewrite identify_weaknesses_recovered, suggest_improvements_recovered.
  eexists _, _. split; [reflexivity|]. split; [reflexivity|].
  unfold identify_weaknesses_body, suggest_improvements_body.
  destruct (call_global "extract_required_skills" _ job_description) as [rs|]; [|reflexivity].
  destruct (call_global "extract_skills" _ resume_text) as [sk|]; [|reflexivity].
  destruct (call_global "extract_experience_level" _ job_description) as [el|]; [|reflexivity].
  destruct (call_global "extract_experience_years" _ resume_text) as [ey|]; [|reflexivity].
  destruct (call_global "extract_education_requirements" _ job_description) as [er|];
    [|reflexivity].
  destruct (call_global "extract_education" _ resume_text) as [ed|]; [|reflexivity].
  destruct (call_global "is_well_formatted" _ resume_text) as [wf|]; [|reflexivity].
  cbn [bind recovered]. unfold append_if.
  destruct (negb (bool_decide (_ = []))), (ey <? el),
    (negb (existsb _ er)), (negb wf); reflexivity.
Qed.



(** ** Letter case of the keywords *)

Lemma lower_char_idempotent (c : ascii) :
  Str.lower_char (Str.lower_char c) = Str.lower_char c.
Proof. destruct c as [[] [] [] [] [] [] [] []]; reflexivity. Qed.

Lemma lower_idempotent (s : string) : Str.lower (Str.lower s) = Str.lower s.
Proof.
  induction s as [|c s IH]; [reflexivity|].
  cbn [Str.lower]. rewrite lower_char_idempotent, IH. reflexivity.
Qed.

Lemma keyword_importance_lower (job_keywords : list string) :
  keyword_importance (map Str.lower job_keywords) = keyword_importance job_keywords.
Proof.
  unfold keyword_importance. generalize (@nil (string * float)).
  induction job_keywords as [|kw rest IH]; intros d; [reflexivity|].
  cbn [map fold_left]. rewrite IH, lower_idempotent.
  rewrite (base_weight_lower (Str.lower kw) kw (lower_idempotent kw)). reflexivity.
Qed.

Lemma keywords_in_text_lower (text : string) (job_keywords : list string) :
  length (List.filter (fun kw => Str.contains (Str.lower kw) text)
                      (map Str.lower job_keywords))
  = length (List.filter (fun kw => Str.contains (Str.lower kw) text) job_keywords).
Proof.
  induction job_keywords as [|kw rest IH]; [reflexivity|].
  cbn [map List.filter]. rewrite lower_idempotent.
  destruct (Str.contains (Str.lower kw) text); cbn [length]; rewrite IH; reflexivity.
Qed.

Section KeywordCase.

Context {lib : Library}.

Lemma context_step_lower (resume_text : string) (job_keywords : list string)
    (context_score : float) (section : string) :
  context_step resume_text (map Str.lower job_keywords) context_score section
  = context_step resume_text job_keywords context_score section.
Proof.
  unfold context_step.
  destruct (re_search ("\n\s*" +:+ section +:+ ".*?\n") resume_text true); [|reflexivity].
  rewrite length_map, !filter_is_true, keywords_in_text_lower. reflexivity.
Qed.

End KeywordCase.

(** X19: the letter case of the keywords does not matter to the keyword
    matcher nor to the context-relevance analyzer: lower-casing the keyword
    list changes neither result (nor the error of the matcher). *)
Theorem keyword_case_ignored {lib : Library} (resume_text : string)
    (job_keywords : list string) :
  check_keywords resume_text (map Str.lower job_keywords)
  = check_keywords resume_text job_keywords
  /\ check_context_relevance resume_text (map Str.lower job_keywords)
     = check_context_relevance resume_text job_keywords.
Proof.
  split.
  - destruct job_keywords as [|kw rest]; [reflexivity|].
    unfold check_keywords.
    change (map Str.lower (kw :: rest)) with (Str.lower kw :: map Str.lower rest).
    change (Str.lower kw :: map Str.lower rest) with (map Str.lower (kw :: rest)).
    cbv zeta. rewrite keyword_importance_lower, length_map.
    destruct (map Str.lower (kw :: rest)) eqn:E; [discriminate | reflexivity].
  - destruct job_keywords as [|kw rest]; [reflexivity|].
    unfold check_context_relevance.
    change (map Str.lower (kw :: rest)) with (Str.lower kw :: map Str.lower rest).
    cbv iota beta.
    change (Str.lower kw :: map Str.lower rest) with (map Str.lower (kw :: rest)).
    f_equal. cbn [fold_left]. rewrite !context_step_lower. reflexivity.
Qed.

(** ** Telling the basic result from the full one *)

Lemma analyze_format_not_basic (resume_text : string) :
  issues (ATSScorer._analyze_format resume_text) <> ["Basic analysis only"].
Proof.
  unfold ATSScorer._analyze_format. rewrite filter_is_true. cbn [List.filter].
  destruct (Str.contains "education" (Str.lower resume_text));
  destruct (Str.contains "experience" (Str.lower resume_text));
  destruct (Str.contains "skills" (Str.lower resume_text));
  destruct (Str.contains "projects" (Str.lower resume_text));
  cbn [issues length Nat.ltb Nat.leb]; intros H; vm_compute in H; discriminate.
Qed.

(** X20: the method of the scorer always returns, and its result tells
    which path produced it: the issues of its [format_analysis] are
    ["Basic analysis only"] exactly when the result is the basic one. *)
Theorem basic_result_recognisable {prov : Provider} (self : ATSScorer.t)
    (resume_text job_description : string) :
  match ATSScorer.calculate_ats_score self resume_text job_description with
  | Ok d =>
      exists a, d !! "format_analysis" = Some (VFormat a)
                /\ (issues a = ["Basic analysis only"]
                    <-> d = ATSScorer._basic_ats_score resume_text job_description)
  | Raise _ => False
  end.
Proof.
  assert (Hbasic : exists a,
            ATSScorer._basic_ats_score resume_text job_description !! "format_analysis"
            = Some (VFormat a)
            /\ (issues a = ["Basic analysis only"]
                <-> ATSScorer._basic_ats_score resume_text job_description
                    = ATSScorer._basic_ats_score resume_text job_description)).
  { eexists. split.
    - unfold ATSScorer._basic_ats_score.
      rewrite lookup_insert_ne by discriminate. apply lookup_insert_eq.
    - split; reflexivity. }
  unfold ATSScorer.calculate_ats_score.
  destruct (ATSScorer.initialized self); cbn [negb]; [|exact Hbasic].
  destruct (ATSScorer.similarity_result self resume_text job_description) as [d|e] eqn:Hs;
    cbn [try_except]; [|exact Hbasic].
  unfold ATSScorer.similarity_result in Hs.
  destruct (ATSScorer.model self) as [m|]; cbn [bind] in Hs; [|discriminate].
  destruct (encode m [resume_text; job_description]) as [embeddings|]; cbn [bind] in Hs;
    [|discriminate].
  destruct embeddings as [|a [|b [|c rest]]]; cbn [bind] in Hs; try discriminate.
  destruct (cosine_similarity _ _); cbn [bind] in Hs; [|discriminate].
  injection Hs as <-.
  exists (ATSScorer._analyze_format resume_text). split.
  - rewrite lookup_insert_ne by discriminate. apply lookup_insert_eq.
  - split.
    + intros H. exfalso. exact (analyze_format_not_basic resume_text H).
    + intros H. exfalso.
      assert (Hf : Some (VFormat (ATSScorer._analyze_format resume_text))
                   = ATSScorer._basic_ats_score resume_text job_description
                     !! "format_analysis").
      { rewrite <- H. rewrite lookup_insert_ne by discriminate.
        symmetry. apply lookup_insert_eq. }
      unfold ATSScorer._basic_ats_score in Hf.
      rewrite lookup_insert_ne in Hf by discriminate. rewrite lookup_insert_eq in Hf.
      assert (Ha : ATSScorer._analyze_format resume_text
                   = {| score := 50%float;
                        issues := ["Basic analysis only"];
                        suggestions := ["Try again later for detailed format analysis"] |})
        by congruence.
      apply (analyze_format_not_basic resume_text). rewrite Ha. reflexivity.
Qed.
